(** * The topology Kind controller of onos-operator

    A shallow embedding of [pkg/controller/topo/kind/reconciler.go]: the
    reconciler that mirrors a [v1beta1.Kind] resource into the onos-topo
    registry and guards its deletion with the ["topo"] finalizer.

    The reconciler talks to three collaborators: the Kubernetes API server
    (through [client.Client]), the connection helper [grpc.ConnectService]
    and the topology service (through [topo.TopoClient]).  They are modelled
    by a [World] holding the stored objects, the registry entries and a
    script of failures; every call is recorded, with its answer, in the list
    of events a computation returns. *)

From stdpp Require Import gmap strings list.

Local Open Scope string_scope.
Local Open Scope list_scope.
Local Open Scope nat_scope.

(** ** Errors *)

(** [google.golang.org/grpc/codes]: the codes a non-nil error can carry.
    [codes.OK] is left out: a status with that code converts to a nil
    error, so no error value returned by a call holds it. *)
Inductive codes_Code :=
| codes_Canceled | codes_Unknown | codes_InvalidArgument
| codes_DeadlineExceeded | codes_NotFound | codes_AlreadyExists
| codes_PermissionDenied | codes_ResourceExhausted
| codes_FailedPrecondition | codes_Aborted | codes_OutOfRange
| codes_Unimplemented | codes_Internal | codes_Unavailable
| codes_DataLoss | codes_Unauthenticated.

(** [google.golang.org/grpc/status]: a code and a message. *)
Record status_Status := mkStatus {
  status_Code : codes_Code;
  status_Message : string
}.

(** [onos-lib-go/pkg/errors]: the type tag of a typed error. *)
Inductive errors_Type :=
| errors_Unknown | errors_Canceled | errors_NotFound | errors_AlreadyExists
| errors_Unauthorized | errors_Forbidden | errors_Conflict | errors_Invalid
| errors_Unavailable | errors_NotSupported | errors_Timeout | errors_Internal.

(** [k8s.io/apimachinery]: the reason of an API status error. *)
Inductive metav1_StatusReason :=
| metav1_StatusReasonUnknown | metav1_StatusReasonNotFound
| metav1_StatusReasonAlreadyExists | metav1_StatusReasonConflict
| metav1_StatusReasonTimeout | metav1_StatusReasonInternalError.

(** A non-nil Go [error], by the dynamic types the reconciler's helpers
    tell apart; the nil error is [None] in [option error]. *)
Inductive error :=
| grpcStatusError (s : status_Status)
| TypedError (t : errors_Type) (Message : string)
| APIStatusError (reason : metav1_StatusReason) (Message : string)
| errorString (s : string).

Definition error_Error (err : error) : string :=
  match err with
  | grpcStatusError s => status_Message s
  | TypedError _ m => m
  | APIStatusError _ m => m
  | errorString s => s
  end.

(** [status.FromError]: the status of an error that carries one; any other
    error gives an [Unknown] status and [ok = false]. *)
Definition status_FromError (err : error) : status_Status * bool :=
  match err with
  | grpcStatusError s => (s, true)
  | _ => (mkStatus codes_Unknown (error_Error err), false)
  end.

(** [errors.FromStatus]: the typed error of a status, by its code. *)
Definition errors_FromStatus (stat : status_Status) : error :=
  let m := status_Message stat in
  match status_Code stat with
  | codes_Unknown => TypedError errors_Unknown m
  | codes_Canceled => TypedError errors_Canceled m
  | codes_NotFound => TypedError errors_NotFound m
  | codes_AlreadyExists => TypedError errors_AlreadyExists m
  | codes_Unauthenticated => TypedError errors_Unauthorized m
  | codes_PermissionDenied => TypedError errors_Forbidden m
  | codes_Aborted => TypedError errors_Conflict m
  | codes_InvalidArgument => TypedError errors_Invalid m
  | codes_Unavailable => TypedError errors_Unavailable m
  | codes_Unimplemented => TypedError errors_NotSupported m
  | codes_DeadlineExceeded => TypedError errors_Timeout m
  | codes_Internal => TypedError errors_Internal m
  | _ => TypedError errors_Unknown m
  end.

(** [errors.IsNotFound] and [errors.IsAlreadyExists]: the type tag of a
    typed error; false on every other error. *)
Definition errors_IsNotFound (err : error) : bool :=
  match err with
  | TypedError errors_NotFound _ => true
  | _ => false
  end.

Definition errors_IsAlreadyExists (err : error) : bool :=
  match err with
  | TypedError errors_AlreadyExists _ => true
  | _ => false
  end.

(** [k8serrors.IsNotFound]: the reason of an API status error. *)
Definition k8serrors_IsNotFound (err : error) : bool :=
  match err with
  | APIStatusError metav1_StatusReasonNotFound _ => true
  | _ => false
  end.

(** ** Kubernetes and topology data *)

Record types_NamespacedName := mkNamespacedName {
  nn_Namespace : string;
  nn_Name : string
}.

Record reconcile_Request := mkRequest {
  NamespacedName : types_NamespacedName
}.

Record reconcile_Result := mkResult {
  Requeue : bool;
  RequeueAfter : Z
}.

(** [reconcile.Result{}] *)
Definition Result_zero : reconcile_Result := mkResult false 0.

(** The fields of [metav1.ObjectMeta] the controller reads or writes. *)
Record metav1_ObjectMeta := mkObjectMeta {
  Name : string;
  Namespace : string;
  DeletionTimestamp : option Z;
  Finalizers : list string
}.

(** Modelled from the spec: [v1beta1.KindSpec] of [pkg/apis/topo/v1beta1],
    which is not among the sources: the attribute bag mirrored into the
    registry, read by the reconciler as [kind.Spec.Attributes]. *)
Record v1beta1_KindSpec := mkKindSpec {
  Attributes : gmap string string
}.

(** Modelled from the spec: [v1beta1.Kind] of [pkg/apis/topo/v1beta1], which
    is not among the sources: a resource has its identity (namespace and
    name), a deletion-intent marker and its finalizer tokens in the object
    metadata, and the attribute bag in its spec. *)
Record v1beta1_Kind := mkKind {
  ObjectMeta : metav1_ObjectMeta;
  Spec : v1beta1_KindSpec
}.

(** [&v1beta1.Kind{}] *)
Definition Kind_zero : v1beta1_Kind :=
  mkKind (mkObjectMeta EmptyString EmptyString None []) (mkKindSpec ∅).

(** [topo.ID] is a string. *)
Abbreviation topo_ID := string.

Inductive topo_Object_Type :=
| topo_Object_UNSPECIFIED | topo_Object_ENTITY
| topo_Object_RELATION | topo_Object_KIND.

Record topo_Kind := mkTopoKind {
  topo_Kind_Name : string;
  topo_Kind_Attributes : gmap string string
}.

(** The [Obj] variant of a [topo.Object]; the controller builds only the
    kind variant. *)
Inductive topo_isObject_Obj :=
| topo_Object_Kind (Kind : topo_Kind).

Record topo_Object := mkObject {
  Object_ID : topo_ID;
  Object_Type : topo_Object_Type;
  Object_Obj : topo_isObject_Obj;
  Object_Attributes : gmap string string
}.

Record topo_GetRequest := mkGetRequest { GetRequest_ID : topo_ID }.
Record topo_CreateRequest := mkCreateRequest { CreateRequest_Object : topo_Object }.
Record topo_DeleteRequest := mkDeleteRequest { DeleteRequest_ID : topo_ID }.

(** [*grpc.ClientConn]: the service a connection was opened to. *)
Record grpc_ClientConn := mkClientConn {
  conn_namespace : string;
  conn_service : string
}.

(** ** The finalizer helpers *)

Definition set_Finalizers (object : v1beta1_Kind) (fs : list string) : v1beta1_Kind :=
  let m := ObjectMeta object in
  mkKind (mkObjectMeta (Name m) (Namespace m) (DeletionTimestamp m) fs) (Spec object).

(** Modelled from the spec: [k8s.HasFinalizer] of [pkg/controller/util/k8s],
    which is not among the sources: the membership check of the finalizer
    ledger. *)
Definition k8s_HasFinalizer (object : v1beta1_Kind) (name : string) : bool :=
  bool_decide (name ∈ Finalizers (ObjectMeta object)).

(** Modelled from the spec: [k8s.AddFinalizer] of [pkg/controller/util/k8s],
    which is not among the sources: an idempotent insert, a no-op if the
    token is already present. *)
Definition k8s_AddFinalizer (object : v1beta1_Kind) (name : string) : v1beta1_Kind :=
  if k8s_HasFinalizer object name then object
  else set_Finalizers object (Finalizers (ObjectMeta object) ++ [name]).

(** Modelled from the spec: [k8s.RemoveFinalizer] of
    [pkg/controller/util/k8s], which is not among the sources: an idempotent
    delete of that one token, a no-op if it is absent. *)
Definition k8s_RemoveFinalizer (object : v1beta1_Kind) (name : string) : v1beta1_Kind :=
  set_Finalizers object (filter (λ f, f ≠ name) (Finalizers (ObjectMeta object))).

(** ** The world and the computations over it *)

(** What the collaborators hold: the objects of the API server by
    namespace and name, the entries of the topology registry by identifier,
    and a script of failures.  Every call to a collaborator takes the next
    item of the script: [Some err] makes the call fail with [err] and change
    nothing, [None] (or an exhausted script) lets it run. *)
Record World := mkWorld {
  objects : gmap (string * string) v1beta1_Kind;
  entries : gmap string topo_Object;
  faults : list (option error)
}.

(** The calls a reconciliation makes, each with the error it returned. *)
Inductive Event :=
| EvClientGet (key : types_NamespacedName) (err : option error)
| EvClientUpdate (obj : v1beta1_Kind) (err : option error)
| EvConnectService (namespace name : string) (err : option error)
| EvConnClose (conn : grpc_ClientConn)
| EvTopoGet (request : topo_GetRequest) (err : option error)
| EvTopoCreate (request : topo_CreateRequest) (err : option error)
| EvTopoDelete (request : topo_DeleteRequest) (err : option error).

(** A computation threads the world and returns the events of its calls,
    oldest first. *)
Definition M (A : Type) : Type := World → A * World * list Event.

#[global] Instance M_ret : MRet M := λ A a w, (a, w, []).

#[global] Instance M_bind : MBind M := λ A B f m w,
  let '(a, w1, t1) := m w in
  let '(b, w2, t2) := f a w1 in
  (b, w2, t1 ++ t2).

Definition emit (e : Event) : M unit := λ w, (tt, w, [e]).

Definition next_fault : M (option error) := λ w,
  match faults w with
  | [] => (None, w, [])
  | f :: fs => (f, mkWorld (objects w) (entries w) fs, [])
  end.

Definition get_objects : M (gmap (string * string) v1beta1_Kind) :=
  λ w, (objects w, w, []).

Definition put_objects (o : gmap (string * string) v1beta1_Kind) : M unit :=
  λ w, (tt, mkWorld o (entries w) (faults w), []).

Definition get_entries : M (gmap string topo_Object) :=
  λ w, (entries w, w, []).

Definition put_entries (e : gmap string topo_Object) : M unit :=
  λ w, (tt, mkWorld (objects w) e (faults w), []).

(** The value, the final world and the events of a run. *)
Definition result {A} (r : A * World * list Event) : A := r.1.1.
Definition world {A} (r : A * World * list Event) : World := r.1.2.
Definition events {A} (r : A * World * list Event) : list Event := r.2.

(** ** The collaborators *)

(** [client.Client]: the two methods the reconciler calls. *)
Record client_Client := mkClient {
  Client_Get : types_NamespacedName → M (v1beta1_Kind * option error);
  Client_Update : v1beta1_Kind → M (option error)
}.

Definition NotFound_object (key : string * string) : error :=
  APIStatusError metav1_StatusReasonNotFound ("kinds " +:+ key.2 +:+ " not found").

(** The API server: [Get] answers with the stored object or a not-found
    status error, [Update] replaces a stored object. *)
Definition apiserver_Get (key : types_NamespacedName) : M (v1beta1_Kind * option error) :=
  f ← next_fault;
  o ← get_objects;
  let r := match f with
           | Some err => (Kind_zero, Some err)
           | None =>
               match o !! (nn_Namespace key, nn_Name key) with
               | Some obj => (obj, None)
               | None => (Kind_zero, Some (NotFound_object (nn_Namespace key, nn_Name key)))
               end
           end in
  emit (EvClientGet key r.2);;
  mret r.

Definition apiserver_Update (obj : v1beta1_Kind) : M (option error) :=
  f ← next_fault;
  o ← get_objects;
  let k := (Namespace (ObjectMeta obj), Name (ObjectMeta obj)) in
  match f with
  | Some err => emit (EvClientUpdate obj (Some err));; mret (Some err)
  | None =>
      match o !! k with
      | Some _ =>
          put_objects (<[k := obj]> o);;
          emit (EvClientUpdate obj None);;
          mret None
      | None =>
          emit (EvClientUpdate obj (Some (NotFound_object k)));;
          mret (Some (NotFound_object k))
      end
  end.

Definition apiserver : client_Client := mkClient apiserver_Get apiserver_Update.

(** Modelled from the spec: [grpc.ConnectService] of
    [pkg/controller/util/grpc], which is not among the sources.  Connection
    acquisition is owned by a collaborator: the call either fails or hands
    back a live connection to the named service of the namespace. *)
Definition grpc_ConnectService (c : client_Client) (namespace name : string)
  : M (grpc_ClientConn + error) :=
  f ← next_fault;
  emit (EvConnectService namespace name f);;
  match f with
  | Some err => mret (inr err)
  | None => mret (inl (mkClientConn namespace name))
  end.

Definition conn_Close (conn : grpc_ClientConn) : M unit :=
  emit (EvConnClose conn).

(** [topo.TopoClient]: the three methods the reconciler calls. *)
Record topo_TopoClient := mkTopoClient {
  TopoClient_Get : topo_GetRequest → M (option topo_Object * option error);
  TopoClient_Create : topo_CreateRequest → M (option error);
  TopoClient_Delete : topo_DeleteRequest → M (option error)
}.

(** The topology service: a catalog keyed by identifier.  [Get] and
    [Delete] of a missing identifier fail with status [NotFound], [Create]
    of a present one with status [AlreadyExists]. *)
Definition registry_Get (request : topo_GetRequest) : M (option topo_Object * option error) :=
  f ← next_fault;
  e ← get_entries;
  let r := match f with
           | Some err => (None, Some err)
           | None =>
               match e !! GetRequest_ID request with
               | Some obj => (Some obj, None)
               | None => (None, Some (grpcStatusError (mkStatus codes_NotFound "object not found")))
               end
           end in
  emit (EvTopoGet request r.2);;
  mret r.

Definition registry_Create (request : topo_CreateRequest) : M (option error) :=
  f ← next_fault;
  e ← get_entries;
  let obj := CreateRequest_Object request in
  match f with
  | Some err => emit (EvTopoCreate request (Some err));; mret (Some err)
  | None =>
      match e !! Object_ID obj with
      | Some _ =>
          let err := grpcStatusError (mkStatus codes_AlreadyExists "object already exists") in
          emit (EvTopoCreate request (Some err));; mret (Some err)
      | None =>
          put_entries (<[Object_ID obj := obj]> e);;
          emit (EvTopoCreate request None);;
          mret None
      end
  end.

Definition registry_Delete (request : topo_DeleteRequest) : M (option error) :=
  f ← next_fault;
  e ← get_entries;
  match f with
  | Some err => emit (EvTopoDelete request (Some err));; mret (Some err)
  | None =>
      match e !! DeleteRequest_ID request with
      | Some _ =>
          put_entries (delete (DeleteRequest_ID request) e);;
          emit (EvTopoDelete request None);;
          mret None
      | None =>
          let err := grpcStatusError (mkStatus codes_NotFound "object not found") in
          emit (EvTopoDelete request (Some err));; mret (Some err)
      end
  end.

(** [topo.NewTopoClient] *)
Definition topo_NewTopoClient (conn : grpc_ClientConn) : topo_TopoClient :=
  mkTopoClient registry_Get registry_Create registry_Delete.

(** ** The reconciler *)

Definition topoService : string := "onos-topo".
Definition topoFinalizer : string := "topo".

(** The [scheme] and [config] fields are never read by the reconciliation
    and are left out. *)
Record Reconciler := mkReconciler {
  client : client_Client
}.

Definition kindExists (r : Reconciler) (kind : v1beta1_Kind) (client : topo_TopoClient)
  : M (bool * option error) :=
  let request := mkGetRequest (Name (ObjectMeta kind)) in
  '(_, err) ← TopoClient_Get client request;
  match err with
  | None => mret (true, None)
  | Some err =>
      let '(stat, ok) := status_FromError err in
      if negb ok then mret (false, Some err)
      else
        let err := errors_FromStatus stat in
        if negb (errors_IsNotFound err) then mret (false, Some err)
        else mret (false, None)
  end.

Definition createKind (r : Reconciler) (kind : v1beta1_Kind) (client : topo_TopoClient)
  : M (option error) :=
  let request := mkCreateRequest
    (mkObject (Name (ObjectMeta kind)) topo_Object_KIND
       (topo_Object_Kind (mkTopoKind (Name (ObjectMeta kind)) (Attributes (Spec kind))))
       (Attributes (Spec kind))) in
  err ← TopoClient_Create client request;
  match err with
  | None => mret None
  | Some err =>
      let '(stat, ok) := status_FromError err in
      if negb ok then mret (Some err)
      else
        let err := errors_FromStatus stat in
        if negb (errors_IsAlreadyExists err) then mret (Some err)
        else mret None
  end.

Definition deleteKind (r : Reconciler) (kind : v1beta1_Kind) (client : topo_TopoClient)
  : M (option error) :=
  let request := mkDeleteRequest (Name (ObjectMeta kind)) in
  err ← TopoClient_Delete client request;
  match err with
  | None => mret None
  | Some err =>
      let '(stat, ok) := status_FromError err in
      if negb ok then mret (Some err)
      else
        let err := errors_FromStatus stat in
        if negb (errors_IsNotFound err) then mret (Some err)
        else mret None
  end.

Definition reconcileCreate (r : Reconciler) (kind : v1beta1_Kind)
  : M (reconcile_Result * option error) :=
  (* Add the finalizer to the kind if necessary *)
  '(kind, err) ←
    (if negb (k8s_HasFinalizer kind topoFinalizer) then
       let kind := k8s_AddFinalizer kind topoFinalizer in
       err ← Client_Update (client r) kind;
       mret (kind, err)
     else mret (kind, None));
  match err with
  | Some err => mret (Result_zero, Some err)
  | None =>
      (* Connect to the topology service *)
      c ← grpc_ConnectService (client r) (Namespace (ObjectMeta kind)) topoService;
      match c with
      | inr err => mret (Result_zero, Some err)
      | inl conn =>
          out ←
            (let client := topo_NewTopoClient conn in
             (* Check if the kind exists in the topology and exit reconciliation if so *)
             '(exists_, err) ← kindExists r kind client;
             match err with
             | Some err => mret (Result_zero, Some err)
             | None =>
                 if (exists_ : bool) then mret (Result_zero, None)
                 else
                   (* If the kind does not exist, create it *)
                   err ← createKind r kind client;
                   match err with
                   | Some err => mret (Result_zero, Some err)
                   | None => mret (Result_zero, None)
                   end
             end);
          (* defer conn.Close() *)
          conn_Close conn;;
          mret out
      end
  end.

Definition reconcileDelete (r : Reconciler) (kind : v1beta1_Kind)
  : M (reconcile_Result * option error) :=
  (* If the kind has already been finalized, exit reconciliation *)
  if negb (k8s_HasFinalizer kind topoFinalizer) then mret (Result_zero, None)
  else
    (* Connect to the topology service *)
    c ← grpc_ConnectService (client r) (Namespace (ObjectMeta kind)) topoService;
    match c with
    | inr err => mret (Result_zero, Some err)
    | inl conn =>
        out ←
          (let client_ := topo_NewTopoClient conn in
           (* Delete the kind from the topology *)
           err ← deleteKind r kind client_;
           match err with
           | Some err => mret (Result_zero, Some err)
           | None =>
               (* Once the kind has been deleted, remove the topology finalizer *)
               let kind := k8s_RemoveFinalizer kind topoFinalizer in
               err ← Client_Update (client r) kind;
               match err with
               | Some err => mret (Result_zero, Some err)
               | None => mret (Result_zero, None)
               end
           end);
        (* defer conn.Close() *)
        conn_Close conn;;
        mret out
    end.

Definition Reconcile (r : Reconciler) (request : reconcile_Request)
  : M (reconcile_Result * option error) :=
  (* Fetch the Kind instance *)
  '(kind, err) ← Client_Get (client r) (NamespacedName request);
  match err with
  | Some err =>
      if k8serrors_IsNotFound err then
        (* Request object not found: return and don't requeue *)
        mret (Result_zero, None)
      else
        (* Error reading the object - requeue the request. *)
        mret (Result_zero, Some err)
  | None =>
      match DeletionTimestamp (ObjectMeta kind) with
      | None => reconcileCreate r kind
      | Some _ => reconcileDelete r kind
      end
  end.

(** The reconciler the manager builds in [Add]. *)
Definition engine : Reconciler := mkReconciler apiserver.

(** ** Outcomes and event classes *)

(** What the driving loop makes of [(reconcile.Result, error)]: a nil error
    with the zero result ends the pass, an error has the request
    redelivered. *)
Inductive Outcome :=
| Done
| RequeueErr (err : error)
| RequeueResult.

Definition outcome (out : reconcile_Result * option error) : Outcome :=
  match out.2 with
  | Some err => RequeueErr err
  | None => if Requeue out.1 || negb (RequeueAfter out.1 =? 0)%Z then RequeueResult else Done
  end.

Definition is_finalizer_mutation (e : Event) : bool :=
  match e with EvClientUpdate _ _ => true | _ => false end.

Definition is_registry_mutation (e : Event) : bool :=
  match e with EvTopoCreate _ _ | EvTopoDelete _ _ => true | _ => false end.

Definition is_registry_create (e : Event) : bool :=
  match e with EvTopoCreate _ _ => true | _ => false end.

Definition is_registry_call (e : Event) : bool :=
  match e with
  | EvTopoGet _ _ | EvTopoCreate _ _ | EvTopoDelete _ _ => true
  | _ => false
  end.

Definition is_remote_call (e : Event) : bool :=
  match e with
  | EvConnectService _ _ _ | EvConnClose _ => true
  | _ => is_registry_call e
  end.

Definition count (p : Event → bool) (t : list Event) : nat :=
  length (List.filter p t).

(** The identifier a registry call is keyed by. *)
Definition registry_key (e : Event) : option topo_ID :=
  match e with
  | EvTopoGet request _ => Some (GetRequest_ID request)
  | EvTopoCreate request _ => Some (Object_ID (CreateRequest_Object request))
  | EvTopoDelete request _ => Some (DeleteRequest_ID request)
  | _ => None
  end.

(** ** Error kinds of the remote registry *)

(** The kinds of failure of a registry call the idempotency policy tells
    apart. *)
Inductive ErrorKind := NotFound | AlreadyExists | Unknown.

#[global] Instance ErrorKind_eq_dec : EqDecision ErrorKind.
Proof. solve_decision. Defined.

(** The kind of an error returned by a registry call, following the
    policy's words: not-found and already-exists are the errors carrying a
    status with that code, every other error is unknown. *)
Definition classify (err : error) : ErrorKind :=
  match err with
  | grpcStatusError s =>
      match status_Code s with
      | codes_NotFound => NotFound
      | codes_AlreadyExists => AlreadyExists
      | _ => Unknown
      end
  | _ => Unknown
  end.

(** The error handed to the caller for a failure that is not recovered: the
    typed form of an error carrying a status, the error itself otherwise. *)
Definition surfaced (err : error) : error :=
  match err with
  | grpcStatusError s => errors_FromStatus s
  | _ => err
  end.

(** The policy, following its words: a failure of kind [k] is recovered as
    success, any other failure is surfaced. *)
Definition tolerate (k : ErrorKind) (err : option error) : option error :=
  match err with
  | None => None
  | Some e => if decide (classify e = k) then None else Some (surfaced e)
  end.

(** The existence check, following the policy's words: found is
    [exists = true], not-found is [exists = false], any other failure is
    surfaced. *)
Definition existence (err : option error) : bool * option error :=
  match err with
  | None => (true, None)
  | Some _ => (false, tolerate NotFound err)
  end.

(** ** Sequences of reconciliations *)

(** [n] deliveries of the same request, with the results in order. *)
Fixpoint Reconcile_n (n : nat) (r : Reconciler) (request : reconcile_Request)
  : M (list (reconcile_Result * option error)) :=
  match n with
  | O => mret []
  | S n =>
      out ← Reconcile r request;
      outs ← Reconcile_n n r request;
      mret (out :: outs)
  end.

(** No collaborator fails: the script holds no failure. *)
Definition no_faults (w : World) : Prop := Forall (λ f, f = None) (faults w).

(** The number of registry entries held for an identifier. *)
Definition entries_for (id : topo_ID) (w : World) : nat :=
  size (filter (λ kv : string * topo_Object, kv.1 = id) (entries w)).

(** ** Single-step reconciliation, as a property of one invocation *)

(** One invocation mutates the finalizers at most once, mutates the registry
    at most once, never does both an update and a create, and on an active
    resource without the token makes no remote call. *)
Definition single_step (request : reconcile_Request) (w : World) : Prop :=
  let fetch := Client_Get (client engine) (NamespacedName request) w in
  let run := Reconcile engine request w in
  count is_finalizer_mutation (events run) ≤ 1 ∧
  count is_registry_mutation (events run) ≤ 1 ∧
  (count is_finalizer_mutation (events run) = 0 ∨
   count is_registry_create (events run) = 0) ∧
  ((result fetch).2 = None →
   DeletionTimestamp (ObjectMeta (result fetch).1) = None →
   k8s_HasFinalizer (result fetch).1 topoFinalizer = false →
   count is_remote_call (events run) = 0).

(** ** Sample resources and worlds *)

Definition r1 : v1beta1_Kind :=
  mkKind (mkObjectMeta "r1" "default" None []) (mkKindSpec ∅).

Definition r1_finalized : v1beta1_Kind :=
  mkKind (mkObjectMeta "r1" "default" None ["topo"]) (mkKindSpec ∅).

Definition r1_deleting : v1beta1_Kind :=
  mkKind (mkObjectMeta "r1" "default" (Some 1604102400%Z) ["topo"]) (mkKindSpec ∅).

Definition r1_released : v1beta1_Kind :=
  mkKind (mkObjectMeta "r1" "default" (Some 1604102400%Z) []) (mkKindSpec ∅).

(** A resource of the same name in another namespace. *)
Definition r1_elsewhere : v1beta1_Kind :=
  mkKind (mkObjectMeta "r1" "staging" None ["topo"]) (mkKindSpec ∅).

Definition request_r1 : reconcile_Request :=
  mkRequest (mkNamespacedName "default" "r1").

Definition store (kind : v1beta1_Kind) : gmap (string * string) v1beta1_Kind :=
  {[ (Namespace (ObjectMeta kind), Name (ObjectMeta kind)) := kind ]}.

(** The resource stored, an empty registry, no failure. *)
Definition world_of (kind : v1beta1_Kind) : World := mkWorld (store kind) ∅ [].

(** The same with a script of failures. *)
Definition world_failing (kind : v1beta1_Kind) (fs : list (option error)) : World :=
  mkWorld (store kind) ∅ fs.

Definition unavailable : error :=
  grpcStatusError (mkStatus codes_Unavailable "connection refused").

(** ** Verdicts, call kinds and connection states *)

(** What the answer of one call does to the outcome of the invocation:
    [None] when the run goes on after it. *)
Definition verdict (e : Event) : option Outcome :=
  match e with
  | EvClientGet _ (Some err) =>
      Some (if k8serrors_IsNotFound err then Done else RequeueErr err)
  | EvClientUpdate _ (Some err) => Some (RequeueErr err)
  | EvConnectService _ _ (Some err) => Some (RequeueErr err)
  | EvTopoGet _ err => RequeueErr <$> tolerate NotFound err
  | EvTopoCreate _ err => RequeueErr <$> tolerate AlreadyExists err
  | EvTopoDelete _ err => RequeueErr <$> tolerate NotFound err
  | _ => None
  end.

(** The first verdict among the calls of a run, [Done] when there is none. *)
Definition first_verdict (t : list Event) : Outcome :=
  default Done (head (omap verdict t)).

Definition is_close (e : Event) : bool :=
  match e with EvConnClose _ => true | _ => false end.

(** The operation an event is a call of. *)
Inductive CallKind :=
| ClientGet | ClientUpdate | ConnectService | ConnClose
| TopoGet | TopoCreate | TopoDelete.

#[global] Instance CallKind_eq_dec : EqDecision CallKind.
Proof. solve_decision. Defined.

Definition call_kind (e : Event) : CallKind :=
  match e with
  | EvClientGet _ _ => ClientGet
  | EvClientUpdate _ _ => ClientUpdate
  | EvConnectService _ _ _ => ConnectService
  | EvConnClose _ => ConnClose
  | EvTopoGet _ _ => TopoGet
  | EvTopoCreate _ _ => TopoCreate
  | EvTopoDelete _ _ => TopoDelete
  end.

#[global] Instance grpc_ClientConn_eq_dec : EqDecision grpc_ClientConn.
Proof. solve_decision. Defined.

(** Where a run stands with its connection to the topology service. *)
Inductive ConnState :=
| NotConnected
| Connected (conn : grpc_ClientConn)
| Released.

(** The events of a run use the connection properly from state [s]: the
    store is called before or during the connection, the registry only on
    an open connection, to the service [name] of [namespace]; an opened
    connection is closed, once; nothing follows the close or a failed
    connect, and nothing is left open at the end. *)
Fixpoint bracketed (namespace name : string) (s : ConnState) (t : list Event) : bool :=
  match t with
  | [] => match s with Connected _ => false | _ => true end
  | e :: t =>
      match s, e with
      | NotConnected, EvClientGet _ _
      | NotConnected, EvClientUpdate _ _ => bracketed namespace name s t
      | NotConnected, EvConnectService ns n err =>
          bool_decide (ns = namespace) && bool_decide (n = name) &&
          bracketed namespace name
            (if err is None then Connected (mkClientConn ns n) else Released) t
      | Connected _, EvClientUpdate _ _
      | Connected _, EvTopoGet _ _
      | Connected _, EvTopoCreate _ _
      | Connected _, EvTopoDelete _ _ => bracketed namespace name s t
      | Connected c', EvConnClose c =>
          bool_decide (c = c') && bracketed namespace name Released t
      | _, _ => false
      end
  end.

(** ** Redelivery *)

(** The same stored objects and registry entries with another script. *)
Definition with_faults (fs : list (option error)) (w : World) : World :=
  mkWorld (objects w) (entries w) fs.

(** A script of transient failures: none of them is an answer about the
    presence of the registry entry. *)
Definition transient (fs : list (option error)) : Prop :=
  Forall (λ f, ∀ err, f = Some err → classify err = Unknown) fs.

(** The resource named by the request is stored under its own name. *)
Definition stored (request : reconcile_Request) (kind : v1beta1_Kind) (w : World) : Prop :=
  NamespacedName request =
    mkNamespacedName (Namespace (ObjectMeta kind)) (Name (ObjectMeta kind)) ∧
  objects w !! (Namespace (ObjectMeta kind), Name (ObjectMeta kind)) = Some kind.

(** The API server marking a stored object for deletion: the deletion
    timestamp is set and the object stays until its finalizers are gone. *)
Definition set_DeletionTimestamp (object : v1beta1_Kind) (t : Z) : v1beta1_Kind :=
  let m := ObjectMeta object in
  mkKind (mkObjectMeta (Name m) (Namespace m) (Some t) (Finalizers m)) (Spec object).

Definition mark_for_deletion (key : string * string) (t : Z) (w : World) : World :=
  mkWorld (alter (λ obj, set_DeletionTimestamp obj t) key (objects w)) (entries w) (faults w).

(** The registry object built for a resource. *)
Definition mirror (kind : v1beta1_Kind) : topo_Object :=
  mkObject (Name (ObjectMeta kind)) topo_Object_KIND
    (topo_Object_Kind (mkTopoKind (Name (ObjectMeta kind)) (Attributes (Spec kind))))
    (Attributes (Spec kind)).

(** ** Controller set-up *)

(** The resource types of [pkg/apis/topo/v1beta1] a watch is set on. *)
Inductive runtime_Object := v1beta1_Kind_type | v1beta1_Entity_type | v1beta1_Relation_type.

(** [source.Kind] *)
Record source_Kind := mkSourceKind { Type_ : runtime_Object }.

(** [handler.EnqueueRequestForObject] and [handler.EnqueueRequestForOwner] *)
Inductive handler_EventHandler :=
| handler_EnqueueRequestForObject
| handler_EnqueueRequestForOwner (OwnerType : runtime_Object).

(** [controller.Options] *)
Record controller_Options := mkOptions { Options_Reconciler : Reconciler }.

(** [controller.Controller]: the controller a watch is added to. *)
Record controller_Controller := mkController { controller_name : string }.

(** What the manager holds: its client, the controllers built on it with
    their reconcilers, the watches set on them, and a script of failures
    for the calls of a set-up, read as the script of a [World] is. *)
Record manager_Manager := mkManager {
  mgr_client : client_Client;
  mgr_controllers : list (string * Reconciler);
  mgr_watches : list (string * source_Kind * handler_EventHandler);
  mgr_faults : list (option error)
}.

(** A set-up computation threads the manager. *)
Definition Setup (A : Type) : Type := manager_Manager → A * manager_Manager.

#[global] Instance Setup_ret : MRet Setup := λ A a mgr, (a, mgr).

#[global] Instance Setup_bind : MBind Setup := λ A B f m mgr,
  let '(a, mgr1) := m mgr in f a mgr1.

Definition mgr_GetClient : Setup client_Client := λ mgr, (mgr_client mgr, mgr).

Definition mgr_next_fault : Setup (option error) := λ mgr,
  match mgr_faults mgr with
  | [] => (None, mgr)
  | f :: fs =>
      (f, mkManager (mgr_client mgr) (mgr_controllers mgr) (mgr_watches mgr) fs)
  end.

Definition mgr_add_controller (name : string) (r : Reconciler) : Setup unit := λ mgr,
  (tt, mkManager (mgr_client mgr) (mgr_controllers mgr ++ [(name, r)])
         (mgr_watches mgr) (mgr_faults mgr)).

Definition mgr_add_watch (w : string * source_Kind * handler_EventHandler)
  : Setup unit := λ mgr,
  (tt, mkManager (mgr_client mgr) (mgr_controllers mgr)
         (mgr_watches mgr ++ [w]) (mgr_faults mgr)).

(** [controller.New]: the controller is registered with the manager, unless
    the call fails. *)
Definition controller_New (name : string) (options : controller_Options)
  : Setup (controller_Controller + error) :=
  f ← mgr_next_fault;
  match f with
  | Some err => mret (inr err)
  | None =>
      mgr_add_controller name (Options_Reconciler options);;
      mret (inl (mkController name))
  end.

(** [Controller.Watch]: the watch is set, unless the call fails. *)
Definition Controller_Watch (c : controller_Controller) (src : source_Kind)
    (h : handler_EventHandler) : Setup (option error) :=
  f ← mgr_next_fault;
  match f with
  | Some err => mret (Some err)
  | None => mgr_add_watch (controller_name c, src, h);; mret None
  end.

(** [Add] creates a new Kind controller and adds it to the manager. *)
Definition Add : Setup (option error) :=
  client ← mgr_GetClient;
  let r := mkReconciler client in
  (* Create a new controller *)
  c ← controller_New "topo-kind-controller" (mkOptions r);
  match c with
  | inr err => mret (Some err)
  | inl c =>
      (* Watch for changes to primary resource Kind *)
      err ← Controller_Watch c (mkSourceKind v1beta1_Kind_type)
              handler_EnqueueRequestForObject;
      match err with
      | Some err => mret (Some err)
      | None =>
          (* Watch for changes to secondary resource Entity and requeue the Kind *)
          err ← Controller_Watch c (mkSourceKind v1beta1_Entity_type)
                  (handler_EnqueueRequestForOwner v1beta1_Kind_type);
          match err with
          | Some err => mret (Some err)
          | None =>
              (* Watch for changes to secondary resource Relation and requeue the Kind *)
              err ← Controller_Watch c (mkSourceKind v1beta1_Relation_type)
                      (handler_EnqueueRequestForOwner v1beta1_Kind_type);
              match err with
              | Some err => mret (Some err)
              | None => mret None
              end
          end
      end
  end.

(** The watches of the Kind controller, in the order [Add] sets them. *)
Definition kind_watches : list (string * source_Kind * handler_EventHandler) :=
  [("topo-kind-controller", mkSourceKind v1beta1_Kind_type,
    handler_EnqueueRequestForObject);
   ("topo-kind-controller", mkSourceKind v1beta1_Entity_type,
    handler_EnqueueRequestForOwner v1beta1_Kind_type);
   ("topo-kind-controller", mkSourceKind v1beta1_Relation_type,
    handler_EnqueueRequestForOwner v1beta1_Kind_type)].

(** The [i]-th item of a script, [None] past its end. *)
Definition script_item (fs : list (option error)) (i : nat) : option error :=
  default None (fs !! i).

(** ** Further samples *)

(** An entry for [r1] that is not the mirror of the resource. *)
Definition stale_entry : topo_Object :=
  mkObject "r1" topo_Object_KIND
    (topo_Object_Kind (mkTopoKind "r1" {[ "vendor" := "acme" ]}))
    {[ "vendor" := "acme" ]}.

Definition conflict : error :=
  APIStatusError metav1_StatusReasonConflict "the object has been modified".

(** A typed not-found error that carries no status. *)
Definition gone : error := TypedError errors_NotFound "gone".

(** A client whose every call fails with [err]. *)
Definition failing_client (err : error) : topo_TopoClient :=
  mkTopoClient (λ _, mret (None, Some err)) (λ _, mret (Some err)) (λ _, mret (Some err)).

(** A manager on the API server, with nothing built on it yet. *)
Definition manager_of (fs : list (option error)) : manager_Manager :=
  mkManager apiserver [] [] fs.

(** * Properties *)

(** ** Error classification of the three registry helpers *)

(** The kinds of the policy are what the code tests for: a status taken
    from the error with [ok = true] whose typed form is of that type. *)
Lemma classify_NotFound err :
  classify err = NotFound ↔
  ∃ stat, status_FromError err = (stat, true) ∧ errors_IsNotFound (errors_FromStatus stat) = true.
Proof.
  split.
  - destruct err as [[c m]| | |]; simpl; try discriminate.
    destruct c; try discriminate. intros _. by eexists.
  - intros (stat & Hs & Hn). destruct err as [[c m]| | |]; simpl in *; try discriminate.
    injection Hs as <-. by destruct c.
Qed.

Lemma classify_AlreadyExists err :
  classify err = AlreadyExists ↔
  ∃ stat, status_FromError err = (stat, true) ∧ errors_IsAlreadyExists (errors_FromStatus stat) = true.
Proof.
  split.
  - destruct err as [[c m]| | |]; simpl; try discriminate.
    destruct c; try discriminate. intros _. by eexists.
  - intros (stat & Hs & Hn). destruct err as [[c m]| | |]; simpl in *; try discriminate.
    injection Hs as <-. by destruct c.
Qed.

(** On an error that carries a status the test is one on its code. *)
Lemma IsNotFound_classify stat :
  errors_IsNotFound (errors_FromStatus stat) = true ↔ classify (grpcStatusError stat) = NotFound.
Proof. destruct stat as [c m]. by destruct c. Qed.

Lemma IsAlreadyExists_classify stat :
  errors_IsAlreadyExists (errors_FromStatus stat) = true ↔
  classify (grpcStatusError stat) = AlreadyExists.
Proof. destruct stat as [c m]. by destruct c. Qed.

(** The tail shared by the three helpers, for a recovered kind decided by
    [is_kind] on the typed error. *)
Lemma tolerate_unfold k (is_kind : error → bool) err :
  (∀ stat, is_kind (errors_FromStatus stat) = true ↔ classify (grpcStatusError stat) = k) →
  k ≠ Unknown →
  (let '(stat, ok) := status_FromError err in
   if negb ok then Some err
   else if negb (is_kind (errors_FromStatus stat)) then Some (errors_FromStatus stat)
        else None) = tolerate k (Some err).
Proof.
  intros Hk Hu. unfold tolerate.
  destruct err as [stat| | |]; simpl.
  - specialize (Hk stat). simpl in Hk.
    destruct (is_kind (errors_FromStatus stat)); simpl.
    + rewrite decide_True; [done | by apply Hk].
    + rewrite decide_False; [done |]. intros H. apply Hk in H. discriminate.
  - by rewrite decide_False.
  - by rewrite decide_False.
  - by rewrite decide_False.
Qed.

(** One helper: run the call, then recover the tolerated kind. *)
Ltac run_helper call k is_kind is_kind_classify :=
  unfold mbind, M_bind, mret, M_ret, result, world, events;
  (destruct call as [[[? [?|]] ?] ?] || destruct call as [[[?|] ?] ?]);
  cbn [fst snd]; [| by rewrite app_nil_r];
  unfold existence;
  rewrite <- (tolerate_unfold k is_kind _ is_kind_classify) by done;
  match goal with |- context [status_FromError ?e] =>
    destruct (status_FromError e) as [? [|]]
  end; cbn [negb]; [| by rewrite app_nil_r];
  match goal with |- context [negb ?b] => destruct b end;
  cbn [negb]; by rewrite app_nil_r.

(** Each helper is its one call followed by the policy. *)
Lemma kindExists_run r kind client w :
  kindExists r kind client w =
    let g := TopoClient_Get client (mkGetRequest (Name (ObjectMeta kind))) w in
    (existence (result g).2, world g, events g).
Proof.
  unfold kindExists.
  run_helper (TopoClient_Get client (mkGetRequest (Name (ObjectMeta kind))) w)
    NotFound errors_IsNotFound IsNotFound_classify.
Qed.

Lemma createKind_run r kind client w :
  createKind r kind client w =
    let request := mkCreateRequest
      (mkObject (Name (ObjectMeta kind)) topo_Object_KIND
         (topo_Object_Kind (mkTopoKind (Name (ObjectMeta kind)) (Attributes (Spec kind))))
         (Attributes (Spec kind))) in
    let c := TopoClient_Create client request w in
    (tolerate AlreadyExists (result c), world c, events c).
Proof.
  unfold createKind.
  match goal with |- context [TopoClient_Create client ?req w] =>
    run_helper (TopoClient_Create client req w)
      AlreadyExists errors_IsAlreadyExists IsAlreadyExists_classify
  end.
Qed.

Lemma deleteKind_run r kind client w :
  deleteKind r kind client w =
    let d := TopoClient_Delete client (mkDeleteRequest (Name (ObjectMeta kind))) w in
    (tolerate NotFound (result d), world d, events d).
Proof.
  unfold deleteKind.
  run_helper (TopoClient_Delete client (mkDeleteRequest (Name (ObjectMeta kind))) w)
    NotFound errors_IsNotFound IsNotFound_classify.
Qed.

(** ** Running a reconciliation against the collaborators *)

Arguments classify : simpl nomatch.
Arguments surfaced : simpl nomatch.
Arguments k8serrors_IsNotFound : simpl nomatch.
Arguments k8s_HasFinalizer : simpl never.
Arguments k8s_AddFinalizer : simpl never.
Arguments k8s_RemoveFinalizer : simpl never.

(** Adding a token touches the finalizers only, and leaves the token in. *)
Lemma AddFinalizer_Name object name :
  Name (ObjectMeta (k8s_AddFinalizer object name)) = Name (ObjectMeta object).
Proof. unfold k8s_AddFinalizer. by destruct (k8s_HasFinalizer object name). Qed.

Lemma AddFinalizer_Namespace object name :
  Namespace (ObjectMeta (k8s_AddFinalizer object name)) = Namespace (ObjectMeta object).
Proof. unfold k8s_AddFinalizer. by destruct (k8s_HasFinalizer object name). Qed.

Lemma AddFinalizer_Spec object name :
  Spec (k8s_AddFinalizer object name) = Spec object.
Proof. unfold k8s_AddFinalizer. by destruct (k8s_HasFinalizer object name). Qed.

Lemma AddFinalizer_has object name :
  k8s_HasFinalizer (k8s_AddFinalizer object name) name = true.
Proof.
  unfold k8s_AddFinalizer. destruct (k8s_HasFinalizer object name) eqn:H; [done |].
  unfold k8s_HasFinalizer. apply bool_decide_eq_true. simpl.
  apply elem_of_app. right. by apply list_elem_of_singleton.
Qed.

Lemma RemoveFinalizer_has object name :
  k8s_HasFinalizer (k8s_RemoveFinalizer object name) name = false.
Proof.
  unfold k8s_HasFinalizer, k8s_RemoveFinalizer. apply bool_decide_eq_false. simpl.
  rewrite list_elem_of_filter. by intros [? _].
Qed.

Ltac unfold_calls :=
  unfold Reconcile, reconcileCreate, reconcileDelete, engine, apiserver,
    apiserver_Get, apiserver_Update, grpc_ConnectService, conn_Close,
    topo_NewTopoClient, registry_Get, registry_Create, registry_Delete,
    next_fault, emit, get_objects, put_objects, get_entries, put_entries,
    mbind, M_bind, mret, M_ret, events, result, world in *.

(** Decide a test of the code: by what is known of it, else by cases. *)
Ltac decide_test x :=
  lazymatch x with
  | context [match _ with _ => _ end] => fail
  | _ => match goal with
         | H : x = _ |- _ => rewrite H
         | _ => destruct x eqn:?
         end
  end.

(** Follow the run one call at a time: resolve the innermost undecided
    test, or replace a helper by its characterisation once the world it
    runs in is known. *)
Ltac step :=
  first
    [ progress (rewrite ?kindExists_run, ?createKind_run, ?deleteKind_run,
                  ?AddFinalizer_Name, ?AddFinalizer_Namespace, ?AddFinalizer_Spec);
      unfold_calls; simpl in *
    | progress simplify_eq/=
    | match goal with
      | H : Forall _ (_ :: _) |- _ => apply Forall_cons in H as [-> H]
      | |- context [negb ?b] => decide_test b
      | |- context [match ?x with _ => _ end] => decide_test x
      end; simpl in * ].

Ltac crunch := unfold_calls; simpl in *; repeat step.

(** C7: a fetch that fails ends the reconciliation at once.  When the
    failure is not-found the outcome is [Done]; any other failure is
    surfaced and the request is requeued.  Either way the fetch is the only
    call: no connection, no registry call, no update, and the stored
    objects and registry entries are as before. *)
Theorem Reconcile_fetch_failed request w err :
  (result (Client_Get (client engine) (NamespacedName request) w)).2 = Some err →
  let run := Reconcile engine request w in
  outcome (result run) = (if k8serrors_IsNotFound err then Done else RequeueErr err) ∧
  events run = [EvClientGet (NamespacedName request) (Some err)] ∧
  count is_remote_call (events run) = 0 ∧
  count is_finalizer_mutation (events run) = 0 ∧
  objects (world run) = objects w ∧
  entries (world run) = entries w.
Proof.
  destruct w as [o en fs]. intros H run. subst run.
  crunch; solve [by repeat split | congruence].
Qed.

(** The request names a resource the store does not hold. *)
Lemma fetch_of_missing_r1_is_done :
  let w := mkWorld ∅ ∅ [] in
  let run := Reconcile engine request_r1 w in
  outcome (result run) = Done ∧
  events run =
    [EvClientGet (NamespacedName request_r1) (Some (NotFound_object ("default", "r1")))] ∧
  count is_remote_call (events run) = 0 ∧
  count is_finalizer_mutation (events run) = 0 ∧
  objects (world run) = objects w ∧
  entries (world run) = entries w.
Proof.
  exact (Reconcile_fetch_failed request_r1 (mkWorld ∅ ∅ [])
           (NotFound_object ("default", "r1")) eq_refl).
Defined.

(** C8: a resource with deletion intent and without the token is terminal.
    The outcome is [Done], the fetch is the only call, and neither the
    stored objects nor the registry entries change. *)
Theorem Reconcile_finalized_is_terminal request w kind :
  result (Client_Get (client engine) (NamespacedName request) w) = (kind, None) →
  is_Some (DeletionTimestamp (ObjectMeta kind)) →
  k8s_HasFinalizer kind topoFinalizer = false →
  let run := Reconcile engine request w in
  outcome (result run) = Done ∧
  events run = [EvClientGet (NamespacedName request) None] ∧
  count is_remote_call (events run) = 0 ∧
  count is_finalizer_mutation (events run) = 0 ∧
  objects (world run) = objects w ∧
  entries (world run) = entries w.
Proof.
  destruct w as [o en fs]. intros H [t Ht] Hf run. subst run.
  crunch; solve [by repeat split | congruence].
Qed.

(** The resource is marked for deletion and its token is gone. *)
Lemma released_r1_is_terminal :
  let w := world_of r1_released in
  let run := Reconcile engine request_r1 w in
  outcome (result run) = Done ∧
  events run = [EvClientGet (NamespacedName request_r1) None] ∧
  count is_remote_call (events run) = 0 ∧
  count is_finalizer_mutation (events run) = 0 ∧
  objects (world run) = objects w ∧
  entries (world run) = entries w.
Proof.
  apply (Reconcile_finalized_is_terminal request_r1 (world_of r1_released) r1_released).
  - vm_compute. reflexivity.
  - by eexists.
  - vm_compute. reflexivity.
Defined.

(** The deletion path makes no [Create] call and adds no registry entry,
    whatever the collaborators answer. *)
Lemma reconcileDelete_no_create kind w :
  let run := reconcileDelete engine kind w in
  count is_registry_create (events run) = 0 ∧ entries (world run) ⊆ entries w.
Proof.
  destruct w as [o en fs]. intros run. subst run.
  crunch; split; try done; apply delete_subseteq.
Qed.

(** C6: with deletion intent present, [Reconcile] hands the fetched resource
    to the deletion path and to nothing else; that path makes no [Create]
    call, so the invocation has none, and the registry entries afterwards
    are among those before: no identifier goes from absent to present. *)
Theorem Reconcile_deleting_never_creates request w kind :
  result (Client_Get (client engine) (NamespacedName request) w) = (kind, None) →
  is_Some (DeletionTimestamp (ObjectMeta kind)) →
  let fetch := Client_Get (client engine) (NamespacedName request) w in
  let run := Reconcile engine request w in
  let del := reconcileDelete engine kind (world fetch) in
  run = (result del, world del, events fetch ++ events del) ∧
  count is_registry_create (events del) = 0 ∧
  count is_registry_create (events run) = 0 ∧
  entries (world run) ⊆ entries w.
Proof.
  intros Hfetch [t Ht] fetch run del.
  assert (Hrun : run = (result del, world del, events fetch ++ events del)).
  { subst run del. unfold Reconcile, mbind, M_bind. fold fetch.
    unfold result in Hfetch. fold fetch in Hfetch.
    unfold world, events, result.
    destruct fetch as [[[k e] w1] t1]; simpl in *. simplify_eq. rewrite Ht.
    by destruct (reconcileDelete engine kind w1) as [[b w2] t2]. }
  destruct (reconcileDelete_no_create kind (world fetch)) as [Hc Hs].
  fold del in Hc, Hs.
  assert (Hf : count is_registry_create (events fetch) = 0 ∧ entries (world fetch) = entries w).
  { subst fetch. destruct w as [o en fs]. clear. crunch; done. }
  destruct Hf as [Hf1 Hf2].
  split; [done |]. split; [done |].
  rewrite Hrun. unfold events at 1, world at 1. simpl.
  split.
  - unfold count in *. rewrite List.filter_app, length_app. lia.
  - by rewrite <- Hf2.
Qed.

(** The resource is marked for deletion and still holds the token. *)
Lemma deleting_r1_never_creates :
  let w := world_of r1_deleting in
  let run := Reconcile engine request_r1 w in
  is_Some (DeletionTimestamp (ObjectMeta r1_deleting)) ∧
  count is_registry_create (events run) = 0 ∧
  entries (world run) ⊆ entries w.
Proof.
  intros w run.
  assert (Hfetch : result (Client_Get (client engine) (NamespacedName request_r1) w)
                   = (r1_deleting, None)) by (vm_compute; reflexivity).
  assert (Hdel : is_Some (DeletionTimestamp (ObjectMeta r1_deleting))) by (by eexists).
  split; [exact Hdel |].
  exact (proj2 (proj2 (Reconcile_deleting_never_creates request_r1 w r1_deleting Hfetch Hdel))).
Defined.

(** Splitting a known list of events around one of them. *)
Ltac split_events :=
  repeat match goal with
  | H : _ :: _ = ?t1 ++ _ :: _ |- _ => destruct t1; simplify_eq/=
  | H : [] = _ ++ _ :: _ |- _ => by destruct (app_cons_not_nil _ _ _ H)
  end.

Ltac find_event :=
  repeat (first [ apply list_elem_of_here | apply list_elem_of_further ]).

Ltac elem_cases :=
  repeat match goal with
  | H : _ ∈ _ :: _ |- _ => apply elem_of_cons in H as [H|H]; simplify_eq/=
  | H : _ ∈ [] |- _ => by apply elem_of_nil in H
  end.

(** C2: on a resource with deletion intent and the token, the registry
    [Delete] comes before the update that removes the token: any update of
    the run writes the resource without the token and follows a [Delete],
    keyed by the resource's name, that succeeded or answered not-found.  A
    [Delete] whose failure is surfaced leaves the stored objects as they
    were, with no update attempted, and the request is requeued with that
    error. *)
Theorem Reconcile_delete_then_unfinalize request w kind :
  result (Client_Get (client engine) (NamespacedName request) w) = (kind, None) →
  is_Some (DeletionTimestamp (ObjectMeta kind)) →
  k8s_HasFinalizer kind topoFinalizer = true →
  let run := Reconcile engine request w in
  (∀ t1 obj u t2, events run = t1 ++ EvClientUpdate obj u :: t2 →
     obj = k8s_RemoveFinalizer kind topoFinalizer ∧
     k8s_HasFinalizer obj topoFinalizer = false ∧
     ∃ d, EvTopoDelete (mkDeleteRequest (Name (ObjectMeta kind))) d ∈ t1 ∧
          tolerate NotFound d = None) ∧
  (∀ request' d err, EvTopoDelete request' d ∈ events run →
     tolerate NotFound d = Some err →
     count is_finalizer_mutation (events run) = 0 ∧
     objects (world run) = objects w ∧
     outcome (result run) = RequeueErr err).
Proof.
  destruct w as [o en fs]. intros H [t Ht] Hf run. subst run.
  crunch.
  all: split; [ intros t1 obj u t2 Hev | intros request' d err Hin Htol ].
  all: try (split_events; try done).
  all: try (elem_cases; try done).
  all: unfold tolerate in *.
  all: repeat match goal with H : decide _ = _ |- _ => rewrite H in * end.
  all: simplify_eq/=; try done.
  all: split; [done |]; split; [apply RemoveFinalizer_has |].
  all: eexists; split; [find_event |]; simpl.
  all: by repeat match goal with H : decide _ = _ |- _ => rewrite H end.
Qed.

(** The topology service is unavailable when the entry is to be deleted:
    the third call of the run fails. *)
Lemma failed_delete_keeps_finalizer :
  let w := world_failing r1_deleting [None; None; Some unavailable] in
  let run := Reconcile engine request_r1 w in
  k8s_HasFinalizer r1_deleting topoFinalizer = true ∧
  count is_finalizer_mutation (events run) = 0 ∧
  objects (world run) = objects w ∧
  outcome (result run) = RequeueErr (TypedError errors_Unavailable "connection refused").
Proof.
  intros w run.
  assert (Hfetch : result (Client_Get (client engine) (NamespacedName request_r1) w)
                   = (r1_deleting, None)) by (vm_compute; reflexivity).
  assert (Hdel : is_Some (DeletionTimestamp (ObjectMeta r1_deleting))) by (by eexists).
  assert (Hfin : k8s_HasFinalizer r1_deleting topoFinalizer = true) by (vm_compute; reflexivity).
  split; [exact Hfin |].
  apply (proj2 (Reconcile_delete_then_unfinalize request_r1 w r1_deleting Hfetch Hdel Hfin)
           (mkDeleteRequest "r1") (Some unavailable)).
  - vm_compute. find_event.
  - vm_compute. reflexivity.
Defined.

(** C1, as the code has it: one invocation makes at most one update of the
    resource and at most one mutating registry call.  The token is not added
    in a step of its own: on an active resource without the token, stored
    under its own name, a run in which no collaborator fails updates the
    resource with the token added and goes on, in the same invocation, to
    connect, query the registry and create the entry when it is absent. *)
Theorem Reconcile_mutates_once request w kind :
  let run := Reconcile engine request w in
  let name := Name (ObjectMeta kind) in
  let added := k8s_AddFinalizer kind topoFinalizer in
  count is_finalizer_mutation (events run) ≤ 1 ∧
  count is_registry_mutation (events run) ≤ 1 ∧
  (result (Client_Get (client engine) (NamespacedName request) w) = (kind, None) →
   DeletionTimestamp (ObjectMeta kind) = None →
   k8s_HasFinalizer kind topoFinalizer = false →
   NamespacedName request = mkNamespacedName (Namespace (ObjectMeta kind)) name →
   no_faults w →
   outcome (result run) = Done ∧
   k8s_HasFinalizer added topoFinalizer = true ∧
   objects (world run) !! (Namespace (ObjectMeta kind), name) = Some added ∧
   is_Some (entries (world run) !! name) ∧
   events run =
     [EvClientGet (NamespacedName request) None;
      EvClientUpdate added None;
      EvConnectService (Namespace (ObjectMeta kind)) topoService None] ++
     match entries w !! name with
     | Some _ => [EvTopoGet (mkGetRequest name) None]
     | None =>
         [EvTopoGet (mkGetRequest name)
            (Some (grpcStatusError (mkStatus codes_NotFound "object not found")));
          EvTopoCreate
            (mkCreateRequest
               (mkObject name topo_Object_KIND
                  (topo_Object_Kind (mkTopoKind name (Attributes (Spec kind))))
                  (Attributes (Spec kind))))
            None]
     end ++
     [EvConnClose (mkClientConn (Namespace (ObjectMeta kind)) topoService)]).
Proof.
  destruct w as [o en fs]. intros run name added. subst run name added.
  split; [| split].
  - unfold count. crunch; lia.
  - unfold count. crunch; lia.
  - intros Hfetch Hd Hf Hnn Hq. unfold no_faults in Hq.
    rewrite AddFinalizer_has.
    destruct request as [nn]. simpl in Hnn. subst nn.
    crunch.
    all: try match goal with
         | H1 : ?x = Some _, H2 : ?x = None |- _ => rewrite H1 in H2; discriminate
         end.
    all: rewrite ?lookup_insert_eq; repeat split; eauto.
Qed.

(** The first reconciliation of [r1]: active, without the token, nothing in
    the registry, no failure. *)
Lemma first_reconcile_of_r1 :
  let w := world_of r1 in
  let run := Reconcile engine request_r1 w in
  k8s_HasFinalizer r1 topoFinalizer = false ∧
  outcome (result run) = Done ∧
  objects (world run) !! ("default", "r1") = Some r1_finalized ∧
  is_Some (entries (world run) !! "r1") ∧
  events run =
    [EvClientGet (NamespacedName request_r1) None;
     EvClientUpdate r1_finalized None;
     EvConnectService "default" topoService None;
     EvTopoGet (mkGetRequest "r1")
       (Some (grpcStatusError (mkStatus codes_NotFound "object not found")));
     EvTopoCreate
       (mkCreateRequest
          (mkObject "r1" topo_Object_KIND (topo_Object_Kind (mkTopoKind "r1" ∅)) ∅))
       None;
     EvConnClose (mkClientConn "default" topoService)].
Proof.
  intros w run.
  assert (Hfin : k8s_HasFinalizer r1 topoFinalizer = false) by (vm_compute; reflexivity).
  split; [exact Hfin |].
  destruct (Reconcile_mutates_once request_r1 w r1) as (_ & _ & H).
  destruct H as (Hout & _ & Hobj & Hent & Hev).
  - vm_compute. reflexivity.
  - reflexivity.
  - exact Hfin.
  - reflexivity.
  - apply Forall_nil_2.
  - split; [exact Hout |]. split; [exact Hobj |]. split; [exact Hent |]. exact Hev.
Defined.

(** That same reconciliation is not a single step: it updates the resource
    and creates the registry entry, after a connection and a [Get]. *)
Lemma first_reconcile_not_single_step :
  let run := Reconcile engine request_r1 (world_of r1) in
  count is_finalizer_mutation (events run) = 1 ∧
  count is_registry_create (events run) = 1 ∧
  count is_remote_call (events run) = 4 ∧
  ¬ single_step request_r1 (world_of r1).
Proof.
  repeat split; try (vm_compute; reflexivity).
  unfold single_step. intros (_ & _ & [H | H] & _); vm_compute in H; discriminate.
Qed.

(** C3: the existence check answers [exists = true] when [Get] succeeds,
    [exists = false] with no error when [Get] fails with kind not-found, and
    [exists = false] with the surfaced error when [Get] fails with any other
    kind; it makes no other call.  In a reconciliation, a [Get] failure of
    another kind requeues the request with that error. *)
Theorem kindExists_policy r kind client w request w' request' err :
  let get := TopoClient_Get client (mkGetRequest (Name (ObjectMeta kind))) w in
  let run := kindExists r kind client w in
  let rec := Reconcile engine request w' in
  world run = world get ∧
  events run = events get ∧
  result run =
    match (result get).2 with
    | None => (true, None)
    | Some err =>
        match classify err with
        | NotFound => (false, None)
        | _ => (false, Some (surfaced err))
        end
    end ∧
  (EvTopoGet request' (Some err) ∈ events rec →
   classify err ≠ NotFound →
   outcome (result rec) = RequeueErr (surfaced err)).
Proof.
  intros get run rec. subst get run rec.
  rewrite kindExists_run. cbn zeta.
  unfold result at 1, world at 1, events at 1. cbn [fst snd].
  split; [done |]. split; [done |]. split.
  - destruct (result (TopoClient_Get client _ w)).2 as [e|]; [| done].
    unfold existence, tolerate. by destruct (classify e).
  - destruct w' as [o en fs]. intros Hin Hk. revert Hin.
    crunch.
    all: intros Hin; elem_cases.
    all: unfold tolerate in *.
    all: repeat match goal with H : decide _ = _ |- _ => rewrite H in * end.
    all: simplify_eq/=; try done.
Qed.

(** The topology service is unavailable when the entry is looked up: the
    third call of the run fails. *)
Lemma unavailable_get_requeues :
  let w := world_failing r1_finalized [None; None; Some unavailable] in
  let run := Reconcile engine request_r1 w in
  classify unavailable ≠ NotFound ∧
  outcome (result run) = RequeueErr (TypedError errors_Unavailable "connection refused").
Proof.
  intros w run.
  assert (Hk : classify unavailable ≠ NotFound) by discriminate.
  split; [exact Hk |].
  apply (proj2 (proj2 (proj2 (kindExists_policy engine r1_finalized
           (topo_NewTopoClient (mkClientConn "default" topoService)) w
           request_r1 w (mkGetRequest "r1") unavailable)))).
  - vm_compute. find_event.
  - exact Hk.
Defined.

(** C4: the create helper sends one [Create] for the kind's object and
    returns no error when the call succeeds or fails with kind
    already-exists; a failure of any other kind is returned to the caller. *)
Theorem createKind_policy r kind client w :
  let name := Name (ObjectMeta kind) in
  let request := mkCreateRequest
    (mkObject name topo_Object_KIND
       (topo_Object_Kind (mkTopoKind name (Attributes (Spec kind))))
       (Attributes (Spec kind))) in
  let create := TopoClient_Create client request w in
  let run := createKind r kind client w in
  world run = world create ∧
  events run = events create ∧
  result run =
    match result create with
    | None => None
    | Some err =>
        match classify err with
        | AlreadyExists => None
        | _ => Some (surfaced err)
        end
    end.
Proof.
  intros name request create run. subst name request create run.
  rewrite createKind_run. cbn zeta.
  unfold result at 1, world at 1, events at 1. cbn [fst snd].
  split; [done |]. split; [done |].
  destruct (result (TopoClient_Create client _ w)) as [e|]; [| done].
  unfold tolerate. by destruct (classify e).
Qed.

(** C5: the delete helper sends one [Delete] keyed by the kind's name and
    returns no error when the call succeeds or fails with kind not-found; a
    failure of any other kind is returned to the caller. *)
Theorem deleteKind_policy r kind client w :
  let delete := TopoClient_Delete client (mkDeleteRequest (Name (ObjectMeta kind))) w in
  let run := deleteKind r kind client w in
  world run = world delete ∧
  events run = events delete ∧
  result run =
    match result delete with
    | None => None
    | Some err =>
        match classify err with
        | NotFound => None
        | _ => Some (surfaced err)
        end
    end.
Proof.
  intros delete run. subst delete run.
  rewrite deleteKind_run. cbn zeta.
  unfold result at 1, world at 1, events at 1. cbn [fst snd].
  split; [done |]. split; [done |].
  destruct (result (TopoClient_Delete client _ w)) as [e|]; [| done].
  unfold tolerate. by destruct (classify e).
Qed.

(** The calls of one reconciliation are keyed by the fetched name. *)
Lemma Reconcile_keys request w :
  let fetch := Client_Get (client engine) (NamespacedName request) w in
  Forall (λ e, registry_key e = None ∨
               registry_key e = Some (Name (ObjectMeta (result fetch).1)))
    (events (Reconcile engine request w)).
Proof.
  destruct w as [o en fs]. intros fetch. subst fetch.
  crunch.
  all: by repeat (constructor; [by auto |]).
Qed.

(** C10: every registry call of a reconciliation is keyed by the name of
    the fetched resource, and the namespace takes no part: for resources of
    the same name (and, for the created object, the same spec) the three
    helpers make the same calls with the same results, whatever their
    namespaces. *)
Theorem registry_key_is_name request w r k1 k2 topo w' :
  Name (ObjectMeta k1) = Name (ObjectMeta k2) →
  Spec k1 = Spec k2 →
  let fetch := Client_Get (client engine) (NamespacedName request) w in
  Forall (λ e, registry_key e = None ∨
               registry_key e = Some (Name (ObjectMeta (result fetch).1)))
    (events (Reconcile engine request w)) ∧
  kindExists r k1 topo w' = kindExists r k2 topo w' ∧
  createKind r k1 topo w' = createKind r k2 topo w' ∧
  deleteKind r k1 topo w' = deleteKind r k2 topo w'.
Proof.
  intros Hn Hs fetch. split; [apply Reconcile_keys |].
  rewrite !kindExists_run, !createKind_run, !deleteKind_run, Hn, Hs. done.
Qed.

(** Two resources named [r1], in the namespaces [default] and [staging]. *)
Lemma same_name_other_namespace :
  let w := world_of r1_finalized in
  let topo := topo_NewTopoClient (mkClientConn "default" topoService) in
  Namespace (ObjectMeta r1_finalized) ≠ Namespace (ObjectMeta r1_elsewhere) ∧
  kindExists engine r1_finalized topo w = kindExists engine r1_elsewhere topo w ∧
  createKind engine r1_finalized topo w = createKind engine r1_elsewhere topo w ∧
  deleteKind engine r1_finalized topo w = deleteKind engine r1_elsewhere topo w.
Proof.
  intros w topo.
  split; [discriminate |].
  exact (proj2 (registry_key_is_name request_r1 w engine r1_finalized r1_elsewhere topo w
                  eq_refl eq_refl)).
Defined.

(** ** Repeated reconciliation of an active, finalized resource *)

Lemma entries_for_present id w :
  is_Some (entries w !! id) → entries_for id w = 1.
Proof.
  intros [obj Hobj]. unfold entries_for.
  assert (Hf : filter (λ kv : string * topo_Object, kv.1 = id) (entries w) = {[ id := obj ]}).
  { apply map_eq. intros k. destruct (decide (k = id)) as [-> | Hne].
    - rewrite lookup_singleton_eq. by apply map_lookup_filter_Some.
    - rewrite lookup_singleton_ne by done.
      apply map_lookup_filter_None. right. by intros x _. }
  rewrite Hf. apply map_size_singleton.
Qed.

(** One delivery on an active, finalized resource when no collaborator
    fails: the outcome is [Done], the resource is not written, the entry is
    present afterwards, and it is created only if it was absent. *)
Lemma Reconcile_finalized_step request w kind :
  objects w !! (nn_Namespace (NamespacedName request), nn_Name (NamespacedName request))
    = Some kind →
  DeletionTimestamp (ObjectMeta kind) = None →
  k8s_HasFinalizer kind topoFinalizer = true →
  no_faults w →
  let run := Reconcile engine request w in
  outcome (result run) = Done ∧
  objects (world run) = objects w ∧
  no_faults (world run) ∧
  is_Some (entries (world run) !! Name (ObjectMeta kind)) ∧
  count is_registry_create (events run) ≤ 1 ∧
  (is_Some (entries w !! Name (ObjectMeta kind)) →
   entries (world run) = entries w ∧ count is_registry_create (events run) = 0).
Proof.
  destruct w as [o en fs]. unfold no_faults. intros Ho Hd Hf Hq.
  simpl in Ho, Hq.
  unfold count.
  crunch.
  all: rewrite ?lookup_insert_eq.
  all: repeat split; eauto; try lia.
  all: match goal with H : is_Some None |- _ => by destruct H end.
Qed.

(** [n] deliveries: every outcome is [Done], the resource is never written,
    and once the entry is present the registry is left alone. *)
Lemma Reconcile_n_finalized n request w kind :
  objects w !! (nn_Namespace (NamespacedName request), nn_Name (NamespacedName request))
    = Some kind →
  DeletionTimestamp (ObjectMeta kind) = None →
  k8s_HasFinalizer kind topoFinalizer = true →
  no_faults w →
  let run := Reconcile_n n engine request w in
  length (result run) = n ∧
  Forall (λ out, outcome out = Done) (result run) ∧
  objects (world run) = objects w ∧
  count is_registry_create (events run) ≤ 1 ∧
  (0 < n → is_Some (entries (world run) !! Name (ObjectMeta kind))) ∧
  (is_Some (entries w !! Name (ObjectMeta kind)) →
   entries (world run) = entries w ∧ count is_registry_create (events run) = 0).
Proof.
  revert w. induction n as [|n IH]; intros w Ho Hd Hf Hq run; subst run.
  - unfold count. simpl. repeat split; auto; lia.
  - cbn [Reconcile_n]. unfold mbind, M_bind, mret, M_ret.
    destruct (Reconcile_finalized_step request w kind Ho Hd Hf Hq)
      as (Hout & Hobj & Hq1 & Hsome & Hle & Hkeep).
    unfold result, world, events in *.
    destruct (Reconcile engine request w) as [[out w1] t1]; simpl in *.
    rewrite <- Hobj in Ho.
    destruct (IH w1 Ho Hd Hf Hq1) as (Hlen & Hall & Hobj2 & _ & _ & Hkeep2).
    destruct (Hkeep2 Hsome) as [Hent Hzero].
    destruct (Reconcile_n n engine request w1) as [[outs w2] t2]; simpl in *.
    rewrite app_nil_r.
    assert (Hcount : count is_registry_create (t1 ++ t2) = count is_registry_create t1).
    { unfold count in *. rewrite List.filter_app, length_app. lia. }
    rewrite Hcount.
    split; [by rewrite Hlen |].
    split; [by constructor |].
    split; [congruence |].
    split; [done |].
    split; [intros _; by rewrite Hent |].
    intros Hpresent. destruct (Hkeep Hpresent) as [Hent1 Hzero1].
    split; [congruence | done].
Qed.

(** C9: [n ≥ 1] deliveries on an active resource that carries the token,
    with no collaborator failing: every delivery returns [Done], and
    afterwards the registry holds exactly one entry for the resource's name,
    created at most once. *)
Theorem Reconcile_n_idempotent n request w kind :
  1 ≤ n →
  objects w !! (nn_Namespace (NamespacedName request), nn_Name (NamespacedName request))
    = Some kind →
  DeletionTimestamp (ObjectMeta kind) = None →
  k8s_HasFinalizer kind topoFinalizer = true →
  no_faults w →
  let run := Reconcile_n n engine request w in
  length (result run) = n ∧
  Forall (λ out, outcome out = Done) (result run) ∧
  entries_for (Name (ObjectMeta kind)) (world run) = 1 ∧
  count is_registry_create (events run) ≤ 1.
Proof.
  intros Hn Ho Hd Hf Hq run.
  destruct (Reconcile_n_finalized n request w kind Ho Hd Hf Hq)
    as (Hlen & Hall & _ & Hle & Hsome & _).
  fold run in Hlen, Hall, Hle, Hsome.
  repeat split; try done.
  apply entries_for_present, Hsome. lia.
Qed.

(** Three deliveries for [r1], active and finalized. *)
Lemma three_reconciles_of_r1 :
  let w := world_of r1_finalized in
  let run := Reconcile_n 3 engine request_r1 w in
  length (result run) = 3 ∧
  Forall (λ out, outcome out = Done) (result run) ∧
  entries_for "r1" (world run) = 1 ∧
  count is_registry_create (events run) ≤ 1.
Proof.
  apply (Reconcile_n_idempotent 3 request_r1 (world_of r1_finalized) r1_finalized).
  - lia.
  - vm_compute. reflexivity.
  - reflexivity.
  - vm_compute. reflexivity.
  - apply Forall_nil_2.
Defined.

(** ** The life of [r1] *)

(** After the first reconciliation the resource holds the token and the
    entry exists; a second delivery finds the entry and changes nothing. *)
Example second_reconcile_of_r1 :
  let w1 := world (Reconcile engine request_r1 (world_of r1)) in
  let run := Reconcile engine request_r1 w1 in
  outcome (result run) = Done ∧
  events run =
    [EvClientGet (NamespacedName request_r1) None;
     EvConnectService "default" topoService None;
     EvTopoGet (mkGetRequest "r1") None;
     EvConnClose (mkClientConn "default" topoService)].
Proof. vm_compute. by split. Qed.

(** With deletion intent set, the entry is deleted and then the token
    removed. *)
Example delete_of_r1 :
  let run := Reconcile engine request_r1 (world_of r1_deleting) in
  outcome (result run) = Done ∧
  objects (world run) !! ("default", "r1") = Some r1_released ∧
  events run =
    [EvClientGet (NamespacedName request_r1) None;
     EvConnectService "default" topoService None;
     EvTopoDelete (mkDeleteRequest "r1")
       (Some (grpcStatusError (mkStatus codes_NotFound "object not found")));
     EvClientUpdate r1_released None;
     EvConnClose (mkClientConn "default" topoService)].
Proof. vm_compute. by repeat split. Qed.

(** A resource named [r1] in another namespace finds the entry created for
    the first one and creates nothing. *)
Example staging_r1_finds_the_entry :
  let w1 := world (Reconcile engine request_r1 (world_of r1_finalized)) in
  let w2 := mkWorld (store r1_elsewhere) (entries w1) [] in
  let run := Reconcile engine (mkRequest (mkNamespacedName "staging" "r1")) w2 in
  is_Some (entries w1 !! "r1") ∧
  outcome (result run) = Done ∧
  entries (world run) = entries w1 ∧
  events run =
    [EvClientGet (mkNamespacedName "staging" "r1") None;
     EvConnectService "staging" topoService None;
     EvTopoGet (mkGetRequest "r1") None;
     EvConnClose (mkClientConn "staging" topoService)].
Proof. vm_compute. repeat split. by eexists. Qed.

(** * Further properties of the reconciler *)

(** Follow the run as [step] does, looking for a helper only where one is
    left, and keeping what a script promises of an item taken from it. *)
Ltac walk_step :=
  first
    [ match goal with
      | |- context [kindExists _ _ _ _] => rewrite kindExists_run
      | |- context [createKind _ _ _ _] => rewrite createKind_run
      | |- context [deleteKind _ _ _ _] => rewrite deleteKind_run
      | |- context [ObjectMeta (k8s_AddFinalizer _ _)] =>
          progress rewrite ?AddFinalizer_Name, ?AddFinalizer_Namespace
      | |- context [Spec (k8s_AddFinalizer _ _)] => rewrite AddFinalizer_Spec
      end; unfold_calls; simpl in *
    | progress simplify_eq/=
    | match goal with
      | H : Forall _ (_ :: _) |- _ => apply Forall_cons in H as [? H]
      | |- context [negb ?b] => decide_test b
      | |- context [match ?x with _ => _ end] => decide_test x
      end; simpl in * ].

Ltac walk := unfold_calls; simpl in *; repeat walk_step.

(** Keep the property to prove folded while the run is followed. *)
Ltac fold_property :=
  cbv zeta;
  match goal with |- context [Reconcile ?r ?q ?w] =>
    pattern (Reconcile r q w);
    match goal with |- ?P _ => let Q := fresh "Q" in set (Q := P) end
  end.

(** Bring what was learnt of the tests on the way back into the goal. *)
Ltac recall :=
  repeat match goal with
  | H : ?x = _ |- context [?x] => tryif is_var x then fail else rewrite H
  end.

Ltac walk_property :=
  fold_property; walk;
  match goal with Q := _ |- _ => subst Q end;
  cbv beta; unfold tolerate in *; simpl; recall; simpl.

(** ** Every invocation, whatever the collaborators answer *)

Lemma Reconcile_always request w :
  let run := Reconcile engine request w in
  (result run).1 = Result_zero ∧
  outcome (result run) = first_verdict (events run) ∧
  NoDup (call_kind <$> events run) ∧
  length (events run) ≤ 6.
Proof.
  destruct w as [o en fs]. unfold first_verdict.
  walk_property.
  all: split; [done |].
  all: split; [done |].
  all: split; [| lia].
  all: apply (bool_decide_unpack _); vm_compute; exact I.
Qed.

(** X1: the result of [Reconcile] is always the zero [reconcile.Result], and
    its outcome is the verdict of the first call whose answer decides it:
    [Done] for a fetch that finds nothing, a requeue with the error for a
    failure that is not recovered, and [Done] when there is no such call. *)
Theorem Reconcile_outcome_is_first_verdict request w :
  let run := Reconcile engine request w in
  (result run).1 = Result_zero ∧
  outcome (result run) = first_verdict (events run).
Proof.
  intros run. destruct (Reconcile_always request w) as (H1 & H2 & _). by split.
Qed.

(** X3: no operation of a collaborator is called twice in one invocation,
    and an invocation makes at most six calls: the reconciler never retries
    by itself. *)
Theorem Reconcile_calls_once request w :
  let run := Reconcile engine request w in
  NoDup (call_kind <$> events run) ∧ length (events run) ≤ 6.
Proof.
  intros run. destruct (Reconcile_always request w) as (_ & _ & H3 & H4). by split.
Qed.

(** X2: after a call whose answer decides the outcome, the run makes no
    other call than closing its connection. *)
Theorem Reconcile_stops_at_verdict request w t1 e t2 :
  events (Reconcile engine request w) = t1 ++ e :: t2 →
  is_Some (verdict e) →
  Forall (λ e', is_close e' = true) t2.
Proof.
  destruct w as [o en fs]. revert t1 e t2.
  walk_property.
  all: intros t1 e' t2 Hev Hv.
  all: split_events.
  all: try by repeat constructor.
  all: try by destruct Hv.
  all: repeat match goal with H : decide _ = _ |- _ => rewrite H in Hv end.
  all: by destruct Hv.
Qed.

(** The topology service is unavailable when the entry is looked up. *)
Lemma unavailable_get_is_last_call :
  let w := world_failing r1_finalized [None; None; Some unavailable] in
  let failed := EvTopoGet (mkGetRequest "r1") (Some unavailable) in
  events (Reconcile engine request_r1 w) =
    [EvClientGet (NamespacedName request_r1) None;
     EvConnectService "default" topoService None] ++
    failed :: [EvConnClose (mkClientConn "default" topoService)] ∧
  is_Some (verdict failed) ∧
  Forall (λ e', is_close e' = true) [EvConnClose (mkClientConn "default" topoService)].
Proof.
  intros w failed.
  assert (Hev : events (Reconcile engine request_r1 w) =
    [EvClientGet (NamespacedName request_r1) None;
     EvConnectService "default" topoService None] ++
    failed :: [EvConnClose (mkClientConn "default" topoService)])
    by (vm_compute; reflexivity).
  assert (Hv : is_Some (verdict failed)) by (vm_compute; by eexists).
  split; [exact Hev |]. split; [exact Hv |].
  exact (Reconcile_stops_at_verdict request_r1 w _ failed _ Hev Hv).
Defined.

(** X4: the registry is called only on an open connection, the connection
    is to the service [onos-topo] of the namespace of the fetched resource,
    and a connection that was opened is closed, once, by the end of the
    invocation, as the last call. *)
Theorem Reconcile_connection_bracketed request w :
  let fetched := (result (Client_Get (client engine) (NamespacedName request) w)).1 in
  bracketed (Namespace (ObjectMeta fetched)) topoService NotConnected
    (events (Reconcile engine request w)) = true.
Proof.
  destruct w as [o en fs].
  walk_property.
  all: rewrite ?bool_decide_true by done; done.
Qed.

(** X5: an invocation writes nothing but the entry under the name of the
    fetched resource and the object under its namespace and name; it adds
    no object to the store and takes none from it. *)
Theorem Reconcile_frame request w :
  let fetched := (result (Client_Get (client engine) (NamespacedName request) w)).1 in
  let run := Reconcile engine request w in
  (∀ id, id ≠ Name (ObjectMeta fetched) →
     entries (world run) !! id = entries w !! id) ∧
  (∀ key, key ≠ (Namespace (ObjectMeta fetched), Name (ObjectMeta fetched)) →
     objects (world run) !! key = objects w !! key) ∧
  dom (objects (world run)) = dom (objects w).
Proof.
  destruct w as [o en fs].
  walk_property.
  all: split; [intros id Hid | split; [intros key Hkey |]].
  all: rewrite ?lookup_insert_ne, ?lookup_delete_ne by done; try done.
  all: apply dom_insert_lookup_L; eauto.
Qed.

(** Reconciling [r1] leaves another entry of the registry alone. *)
Lemma other_entry_untouched :
  let w := mkWorld (store r1) {[ "r2" := stale_entry ]} [] in
  let run := Reconcile engine request_r1 w in
  entries (world run) !! "r2" = entries w !! "r2".
Proof.
  intros w run.
  apply (proj1 (Reconcile_frame request_r1 w) "r2").
  vm_compute. discriminate.
Defined.

(** X6: on an active resource the registry only grows, whatever fails: no
    entry is removed and none is overwritten, also not a stale entry under
    the name of the resource. *)
Theorem Reconcile_active_keeps_entries request w kind :
  result (Client_Get (client engine) (NamespacedName request) w) = (kind, None) →
  DeletionTimestamp (ObjectMeta kind) = None →
  entries w ⊆ entries (world (Reconcile engine request w)).
Proof.
  destruct w as [o en fs]. intros Hfetch Hd. revert Hfetch.
  walk_property.
  all: intros Hfetch; simplify_eq/=; try done.
  all: try congruence.
  all: by apply insert_subseteq.
Qed.

(** The registry holds an entry for [r1] that differs from its mirror. *)
Lemma stale_entry_is_kept :
  let w := mkWorld (store r1) {[ "r1" := stale_entry ]} [] in
  let run := Reconcile engine request_r1 w in
  entries w ⊆ entries (world run) ∧
  entries (world run) !! "r1" = Some stale_entry.
Proof.
  intros w run.
  assert (Hsub : entries w ⊆ entries (world run)).
  { apply (Reconcile_active_keeps_entries request_r1 w r1).
    - vm_compute. reflexivity.
    - reflexivity. }
  split; [exact Hsub |].
  apply (lookup_weaken _ _ _ _ (lookup_singleton_eq "r1" stale_entry) Hsub).
Defined.

(** ** Clean deliveries *)

Lemma AddFinalizer_DeletionTimestamp object name :
  DeletionTimestamp (ObjectMeta (k8s_AddFinalizer object name))
  = DeletionTimestamp (ObjectMeta object).
Proof. unfold k8s_AddFinalizer. by destruct (k8s_HasFinalizer object name). Qed.

Lemma AddFinalizer_idem object name :
  k8s_AddFinalizer (k8s_AddFinalizer object name) name = k8s_AddFinalizer object name.
Proof.
  unfold k8s_AddFinalizer at 1. by rewrite AddFinalizer_has.
Qed.

Lemma AddFinalizer_present object name :
  k8s_HasFinalizer object name = true → k8s_AddFinalizer object name = object.
Proof. intros H. unfold k8s_AddFinalizer. by rewrite H. Qed.

Lemma mirror_AddFinalizer object name :
  mirror (k8s_AddFinalizer object name) = mirror object.
Proof. unfold mirror. by rewrite AddFinalizer_Name, AddFinalizer_Spec. Qed.

(** A delivery on a stored, active resource when no collaborator fails:
    the stored resource holds the token and the entry is there afterwards,
    the one found or else the mirror of the resource. *)
Lemma Reconcile_active_clean request w kind :
  stored request kind w →
  DeletionTimestamp (ObjectMeta kind) = None →
  no_faults w →
  let run := Reconcile engine request w in
  let name := Name (ObjectMeta kind) in
  outcome (result run) = Done ∧
  no_faults (world run) ∧
  objects (world run) !! (Namespace (ObjectMeta kind), name)
    = Some (k8s_AddFinalizer kind topoFinalizer) ∧
  entries (world run) !! name = Some (default (mirror kind) (entries w !! name)) ∧
  entries (world run) =
    (if entries w !! name is Some _ then entries w
     else <[name := mirror kind]> (entries w)).
Proof.
  destruct w as [o en fs]. destruct request as [nn].
  unfold stored, no_faults, mirror. simpl. intros [-> Ho] Hd Hq.
  walk_property.
  all: rewrite ?lookup_insert_eq.
  all: try (rewrite AddFinalizer_present by done).
  all: done.
Qed.

Lemma RemoveFinalizer_meta object name :
  Name (ObjectMeta (k8s_RemoveFinalizer object name)) = Name (ObjectMeta object) ∧
  Namespace (ObjectMeta (k8s_RemoveFinalizer object name)) = Namespace (ObjectMeta object) ∧
  DeletionTimestamp (ObjectMeta (k8s_RemoveFinalizer object name))
  = DeletionTimestamp (ObjectMeta object).
Proof. done. Qed.

(** A delivery on a stored resource marked for deletion that holds the
    token, when no collaborator fails: the entry is gone and the stored
    resource is without the token afterwards. *)
Lemma Reconcile_deleting_clean request w kind :
  stored request kind w →
  is_Some (DeletionTimestamp (ObjectMeta kind)) →
  k8s_HasFinalizer kind topoFinalizer = true →
  no_faults w →
  let run := Reconcile engine request w in
  let name := Name (ObjectMeta kind) in
  outcome (result run) = Done ∧
  no_faults (world run) ∧
  objects (world run) =
    <[(Namespace (ObjectMeta kind), name) := k8s_RemoveFinalizer kind topoFinalizer]>
      (objects w) ∧
  entries (world run) = delete name (entries w) ∧
  count is_finalizer_mutation (events run) = 1 ∧
  count is_registry_mutation (events run) = 1.
Proof.
  destruct w as [o en fs]. destruct request as [nn].
  unfold stored, no_faults. simpl. intros [-> Ho] [t Ht] Hf Hq.
  walk_property.
  all: try done.
  all: repeat split; try done.
  all: symmetry; by apply delete_id.
Qed.

(** A delivery on a stored resource marked for deletion and without the
    token, when the fetch does not fail: nothing changes. *)
Lemma Reconcile_released_clean request w kind :
  stored request kind w →
  is_Some (DeletionTimestamp (ObjectMeta kind)) →
  k8s_HasFinalizer kind topoFinalizer = false →
  no_faults w →
  let run := Reconcile engine request w in
  outcome (result run) = Done ∧
  no_faults (world run) ∧
  objects (world run) = objects w ∧
  entries (world run) = entries w ∧
  events run = [EvClientGet (NamespacedName request) None].
Proof.
  destruct w as [o en fs]. destruct request as [nn].
  unfold stored, no_faults. simpl. intros [-> Ho] [t Ht] Hf Hq.
  walk_property.
  all: done.
Qed.

(** ** Deliveries that may fail *)

(** Whatever fails, a delivery on a stored, active resource leaves it
    stored, with or without the token, and leaves the entry as it was or
    newly created as the mirror of the resource. *)
Lemma Reconcile_active_any request w kind :
  stored request kind w →
  DeletionTimestamp (ObjectMeta kind) = None →
  let w1 := world (Reconcile engine request w) in
  let name := Name (ObjectMeta kind) in
  (objects w1 !! (Namespace (ObjectMeta kind), name) = Some kind ∨
   objects w1 !! (Namespace (ObjectMeta kind), name)
     = Some (k8s_AddFinalizer kind topoFinalizer)) ∧
  (entries w1 !! name = entries w !! name ∨
   entries w !! name = None ∧ entries w1 !! name = Some (mirror kind)).
Proof.
  destruct w as [o en fs]. destruct request as [nn].
  unfold stored, mirror. simpl. intros [-> Ho] Hd.
  walk_property.
  all: rewrite ?lookup_insert_eq.
  all: split; by auto.
Qed.

(** Under transient failures, a delivery on a stored resource marked for
    deletion that holds the token either leaves it stored as it was, or
    leaves it stored without the token with the entry gone. *)
Lemma Reconcile_deleting_any request w kind :
  stored request kind w →
  is_Some (DeletionTimestamp (ObjectMeta kind)) →
  k8s_HasFinalizer kind topoFinalizer = true →
  transient (faults w) →
  let w1 := world (Reconcile engine request w) in
  let name := Name (ObjectMeta kind) in
  objects w1 !! (Namespace (ObjectMeta kind), name) = Some kind ∨
  objects w1 !! (Namespace (ObjectMeta kind), name)
    = Some (k8s_RemoveFinalizer kind topoFinalizer) ∧
  entries w1 !! name = None.
Proof.
  destruct w as [o en fs]. destruct request as [nn].
  unfold stored, transient. simpl. intros [-> Ho] [t Ht] Hf Hq.
  walk_property.
  all: rewrite ?lookup_insert_eq, ?lookup_delete_eq.
  all: try by auto.
  all: repeat match goal with
       | H : ∀ err, Some ?e = Some err → _ |- _ => specialize (H e eq_refl)
       end.
  all: congruence.
Qed.

(** X8: a delivery that failed, in whatever way, followed by a clean one:
    the active resource ends with the token stored and its entry present,
    the one the registry had or else the mirror of the resource. *)
Theorem Reconcile_retry_creates request w kind :
  stored request kind w →
  DeletionTimestamp (ObjectMeta kind) = None →
  let w1 := world (Reconcile engine request w) in
  let run := Reconcile engine request (with_faults [] w1) in
  let name := Name (ObjectMeta kind) in
  outcome (result run) = Done ∧
  objects (world run) !! (Namespace (ObjectMeta kind), name)
    = Some (k8s_AddFinalizer kind topoFinalizer) ∧
  entries (world run) !! name = Some (default (mirror kind) (entries w !! name)).
Proof.
  intros Hst Hd w1 run name.
  destruct (Reconcile_active_any request w kind Hst Hd) as [Hobj Hent].
  fold w1 name in Hobj, Hent.
  assert (Hclean : ∀ kind',
    objects w1 !! (Namespace (ObjectMeta kind), name) = Some kind' →
    k8s_AddFinalizer kind' topoFinalizer = k8s_AddFinalizer kind topoFinalizer →
    Name (ObjectMeta kind') = name →
    Namespace (ObjectMeta kind') = Namespace (ObjectMeta kind) →
    DeletionTimestamp (ObjectMeta kind') = None →
    mirror kind' = mirror kind →
    outcome (result run) = Done ∧
    objects (world run) !! (Namespace (ObjectMeta kind), name)
      = Some (k8s_AddFinalizer kind topoFinalizer) ∧
    entries (world run) !! name = Some (default (mirror kind) (entries w1 !! name))).
  { intros kind' Ho Hadd Hn Hns Hd' Hm.
    assert (Hst' : stored request kind' (with_faults [] w1)).
    { destruct Hst as [Hreq _]. split; simpl; by rewrite Hn, Hns. }
    destruct (Reconcile_active_clean request (with_faults [] w1) kind' Hst' Hd')
      as (Hout & _ & Hobj' & Hent' & _); [by apply Forall_nil_2 |].
    simpl in Hobj', Hent'. rewrite Hn, Hns, Hadd in Hobj'. rewrite Hn, Hm in Hent'.
    done. }
  assert (Hfinal : outcome (result run) = Done ∧
    objects (world run) !! (Namespace (ObjectMeta kind), name)
      = Some (k8s_AddFinalizer kind topoFinalizer) ∧
    entries (world run) !! name = Some (default (mirror kind) (entries w1 !! name))).
  { destruct Hobj as [Ho | Ho].
    - by apply (Hclean kind).
    - apply (Hclean (k8s_AddFinalizer kind topoFinalizer)); try done.
      + apply AddFinalizer_idem.
      + apply AddFinalizer_Name.
      + apply AddFinalizer_Namespace.
      + by rewrite AddFinalizer_DeletionTimestamp.
      + apply mirror_AddFinalizer. }
  destruct Hfinal as (Hout & Hobj' & Hent').
  split; [done |]. split; [done |].
  rewrite Hent'. destruct Hent as [-> | [-> ->]]; done.
Qed.

(** The token of [r1] is stored, then the topology service cannot be
    reached; the next delivery is clean. *)
Lemma r1_created_on_redelivery :
  let w := world_failing r1 [None; None; Some unavailable] in
  let w1 := world (Reconcile engine request_r1 w) in
  let run := Reconcile engine request_r1 (with_faults [] w1) in
  outcome (result (Reconcile engine request_r1 w)) = RequeueErr unavailable ∧
  outcome (result run) = Done ∧
  objects (world run) !! ("default", "r1") = Some r1_finalized ∧
  entries (world run) !! "r1" = Some (mirror r1).
Proof.
  intros w w1 run.
  split; [vm_compute; reflexivity |].
  apply (Reconcile_retry_creates request_r1 w r1).
  - split; vm_compute; reflexivity.
  - reflexivity.
Defined.

(** X9: under transient failures, a delivery that failed followed by a clean
    one: the resource marked for deletion ends without the token and its
    entry is gone, whether or not the registry had it. *)
Theorem Reconcile_retry_deletes request w kind :
  stored request kind w →
  is_Some (DeletionTimestamp (ObjectMeta kind)) →
  k8s_HasFinalizer kind topoFinalizer = true →
  transient (faults w) →
  let w1 := world (Reconcile engine request w) in
  let run := Reconcile engine request (with_faults [] w1) in
  let name := Name (ObjectMeta kind) in
  outcome (result run) = Done ∧
  objects (world run) !! (Namespace (ObjectMeta kind), name)
    = Some (k8s_RemoveFinalizer kind topoFinalizer) ∧
  entries (world run) !! name = None.
Proof.
  intros Hst Hdel Hf Hq w1 run name.
  destruct (Reconcile_deleting_any request w kind Hst Hdel Hf Hq) as [Ho | [Ho Hent]];
    fold w1 name in Ho |- *.
  - assert (Hst' : stored request kind (with_faults [] w1)).
    { destruct Hst as [Hreq _]. by split. }
    destruct (Reconcile_deleting_clean request (with_faults [] w1) kind Hst' Hdel Hf)
      as (Hout & _ & Hobj' & Hent' & _); [by apply Forall_nil_2 |].
    fold run name in Hout, Hobj', Hent'.
    split; [done |]. rewrite Hobj', Hent'.
    by rewrite lookup_insert_eq, lookup_delete_eq.
  - fold w1 name in Hent.
    assert (Hst' : stored request (k8s_RemoveFinalizer kind topoFinalizer)
                     (with_faults [] w1)).
    { destruct Hst as [Hreq _]. by split. }
    destruct (Reconcile_released_clean request (with_faults [] w1)
                (k8s_RemoveFinalizer kind topoFinalizer) Hst' Hdel
                (RemoveFinalizer_has kind topoFinalizer))
      as (Hout & _ & Hobj' & Hent' & _); [by apply Forall_nil_2 |].
    fold run in Hout, Hobj', Hent'.
    split; [done |]. by rewrite Hobj', Hent'.
Qed.

(** The entry of [r1] is deleted, then the update that removes the token
    is refused; the next delivery is clean. *)
Lemma r1_released_on_redelivery :
  let w := mkWorld (store r1_deleting) {[ "r1" := mirror r1 ]}
             [None; None; None; Some conflict] in
  let w1 := world (Reconcile engine request_r1 w) in
  let run := Reconcile engine request_r1 (with_faults [] w1) in
  outcome (result (Reconcile engine request_r1 w)) = RequeueErr conflict ∧
  outcome (result run) = Done ∧
  objects (world run) !! ("default", "r1") = Some r1_released ∧
  entries (world run) !! "r1" = None.
Proof.
  intros w w1 run.
  split; [vm_compute; reflexivity |].
  apply (Reconcile_retry_deletes request_r1 w r1_deleting).
  - split; vm_compute; reflexivity.
  - by eexists.
  - vm_compute. reflexivity.
  - repeat constructor; intros err [= <-]; reflexivity.
Defined.

(** ** Repeated deliveries on a resource marked for deletion *)

(** Once the token is gone, further deliveries change nothing and make no
    call but the fetch. *)
Lemma Reconcile_n_released n request w kind :
  stored request kind w →
  is_Some (DeletionTimestamp (ObjectMeta kind)) →
  k8s_HasFinalizer kind topoFinalizer = false →
  no_faults w →
  let run := Reconcile_n n engine request w in
  length (result run) = n ∧
  Forall (λ out, outcome out = Done) (result run) ∧
  objects (world run) = objects w ∧
  entries (world run) = entries w ∧
  count is_finalizer_mutation (events run) = 0 ∧
  count is_registry_mutation (events run) = 0.
Proof.
  revert w. induction n as [|n IH]; intros w Hst Hdel Hf Hq run; subst run.
  - by repeat split.
  - cbn [Reconcile_n]. unfold mbind, M_bind, mret, M_ret.
    destruct (Reconcile_released_clean request w kind Hst Hdel Hf Hq)
      as (Hout & Hq1 & Hobj & Hent & Hev).
    unfold result, world, events in *.
    destruct (Reconcile engine request w) as [[out w1] t1]; simpl in *.
    assert (Hst1 : stored request kind w1).
    { destruct Hst as [Hreq Ho]. split; [done |]. by rewrite Hobj. }
    destruct (IH w1 Hst1 Hdel Hf Hq1) as (Hlen & Hall & Hobj2 & Hent2 & Hfm & Hrm).
    destruct (Reconcile_n n engine request w1) as [[outs w2] t2]; simpl in *.
    rewrite app_nil_r. subst t1.
    split; [by rewrite Hlen |].
    split; [by constructor |].
    split; [congruence |].
    split; [congruence |].
    done.
Qed.

(** X7: [n ≥ 1] deliveries on a stored resource marked for deletion that
    holds the token, with no collaborator failing: every delivery returns
    [Done]; afterwards the entry is gone and the resource is stored without
    the token, whether or not the registry had the entry; the registry was
    called to delete once and the resource was updated once. *)
Theorem Reconcile_n_deletes_once n request w kind :
  1 ≤ n →
  stored request kind w →
  is_Some (DeletionTimestamp (ObjectMeta kind)) →
  k8s_HasFinalizer kind topoFinalizer = true →
  no_faults w →
  let run := Reconcile_n n engine request w in
  let name := Name (ObjectMeta kind) in
  length (result run) = n ∧
  Forall (λ out, outcome out = Done) (result run) ∧
  entries (world run) !! name = None ∧
  objects (world run) !! (Namespace (ObjectMeta kind), name)
    = Some (k8s_RemoveFinalizer kind topoFinalizer) ∧
  count is_registry_mutation (events run) = 1 ∧
  count is_finalizer_mutation (events run) = 1.
Proof.
  intros Hn Hst Hdel Hf Hq run name. subst run.
  destruct n as [|n]; [lia |].
  cbn [Reconcile_n]. unfold mbind, M_bind, mret, M_ret.
  destruct (Reconcile_deleting_clean request w kind Hst Hdel Hf Hq)
    as (Hout & Hq1 & Hobj & Hent & Hfm & Hrm).
  fold name in Hobj, Hent.
  unfold result, world, events in *.
  destruct (Reconcile engine request w) as [[out w1] t1]; simpl in *.
  assert (Hst1 : stored request (k8s_RemoveFinalizer kind topoFinalizer) w1).
  { destruct Hst as [Hreq Ho]. split; [done |]. simpl. fold name.
    by rewrite Hobj, lookup_insert_eq. }
  destruct (Reconcile_n_released n request w1 _ Hst1 Hdel
              (RemoveFinalizer_has kind topoFinalizer) Hq1)
    as (Hlen & Hall & Hobj2 & Hent2 & Hfm2 & Hrm2).
  unfold result, world, events in *.
  destruct (Reconcile_n n engine request w1) as [[outs w2] t2]; simpl in *.
  rewrite app_nil_r.
  split; [by rewrite Hlen |].
  split; [by constructor |].
  split; [by rewrite Hent2, Hent, lookup_delete_eq |].
  split; [by rewrite Hobj2, Hobj, lookup_insert_eq |].
  unfold count in *. rewrite !List.filter_app, !length_app. lia.
Qed.

(** Two deliveries for [r1] marked for deletion, its entry in the
    registry. *)
Lemma two_deletions_of_r1 :
  let w := mkWorld (store r1_deleting) {[ "r1" := mirror r1 ]} [] in
  let run := Reconcile_n 2 engine request_r1 w in
  length (result run) = 2 ∧
  Forall (λ out, outcome out = Done) (result run) ∧
  entries (world run) !! "r1" = None ∧
  objects (world run) !! ("default", "r1") = Some r1_released ∧
  count is_registry_mutation (events run) = 1 ∧
  count is_finalizer_mutation (events run) = 1.
Proof.
  intros w.
  apply (Reconcile_n_deletes_once 2 request_r1 w r1_deleting).
  - lia.
  - split; vm_compute; reflexivity.
  - by eexists.
  - vm_compute. reflexivity.
  - apply Forall_nil_2.
Defined.

(** ** From creation to deletion *)

Lemma set_DeletionTimestamp_has object t name :
  k8s_HasFinalizer (set_DeletionTimestamp object t) name = k8s_HasFinalizer object name.
Proof. done. Qed.

(** X10: a resource reconciled while active, then marked for deletion and
    reconciled again, with no collaborator failing: both deliveries return
    [Done]; the first leaves the mirror of the resource in the registry, the
    second leaves the registry as it was before the first and the resource
    stored without the token. *)
Theorem Reconcile_create_then_delete request w kind t :
  stored request kind w →
  DeletionTimestamp (ObjectMeta kind) = None →
  entries w !! Name (ObjectMeta kind) = None →
  no_faults w →
  let key := (Namespace (ObjectMeta kind), Name (ObjectMeta kind)) in
  let run1 := Reconcile engine request w in
  let run2 := Reconcile engine request (mark_for_deletion key t (world run1)) in
  outcome (result run1) = Done ∧
  entries (world run1) !! Name (ObjectMeta kind) = Some (mirror kind) ∧
  outcome (result run2) = Done ∧
  entries (world run2) = entries w ∧
  ∃ released,
    objects (world run2) !! key = Some released ∧
    k8s_HasFinalizer released topoFinalizer = false ∧
    DeletionTimestamp (ObjectMeta released) = Some t.
Proof.
  intros Hst Hd Hnone Hq key run1 run2.
  destruct (Reconcile_active_clean request w kind Hst Hd Hq)
    as (Hout1 & Hq1 & Hobj1 & Hent1 & Hall1).
  fold run1 key in Hout1, Hq1, Hobj1, Hent1, Hall1.
  rewrite Hnone in Hent1, Hall1. simpl in Hent1.
  set (added := k8s_AddFinalizer kind topoFinalizer) in *.
  set (kind2 := set_DeletionTimestamp added t).
  set (w2 := mark_for_deletion key t (world run1)) in *.
  assert (Hname : Name (ObjectMeta kind2) = Name (ObjectMeta kind))
    by apply AddFinalizer_Name.
  assert (Hns : Namespace (ObjectMeta kind2) = Namespace (ObjectMeta kind))
    by apply AddFinalizer_Namespace.
  assert (Hst2 : stored request kind2 w2).
  { destruct Hst as [Hreq _]. split; [by rewrite Hname, Hns |].
    rewrite Hname, Hns. subst w2. simpl. fold key.
    by rewrite lookup_alter_eq, Hobj1. }
  assert (Hfin2 : k8s_HasFinalizer kind2 topoFinalizer = true)
    by apply AddFinalizer_has.
  destruct (Reconcile_deleting_clean request w2 kind2 Hst2) as
    (Hout2 & _ & Hobj2 & Hent2 & _); [by eexists | done | done |].
  fold run2 in Hout2, Hobj2, Hent2. rewrite Hname, Hns in Hobj2. rewrite Hname in Hent2.
  fold key in Hobj2.
  split; [done |]. split; [done |]. split; [done |].
  split.
  - rewrite Hent2. subst w2. simpl. rewrite Hall1. by apply delete_insert_id.
  - exists (k8s_RemoveFinalizer kind2 topoFinalizer).
    split; [by rewrite Hobj2, lookup_insert_eq |].
    split; [apply RemoveFinalizer_has | done].
Qed.

(** [r1] is created, marked for deletion and deleted, next to another
    entry of the registry. *)
Lemma r1_created_then_deleted :
  let w := mkWorld (store r1) {[ "r2" := stale_entry ]} [] in
  let run1 := Reconcile engine request_r1 w in
  let run2 :=
    Reconcile engine request_r1
      (mark_for_deletion ("default", "r1") 1604102400 (world run1)) in
  entries (world run1) !! "r1" = Some (mirror r1) ∧
  outcome (result run2) = Done ∧
  entries (world run2) = entries w.
Proof.
  intros w run1 run2.
  destruct (Reconcile_create_then_delete request_r1 w r1 1604102400)
    as (_ & Hent1 & Hout2 & Hent2 & _).
  - split; vm_compute; reflexivity.
  - reflexivity.
  - vm_compute. reflexivity.
  - apply Forall_nil_2.
  - split; [exact Hent1 |]. split; [exact Hout2 | exact Hent2].
Defined.

(** ** Errors that carry no status *)

(** X11: an error of the topology client that carries no gRPC status is
    handed back as it is by the three helpers, never recovered: also a
    typed not-found or already-exists error is then a failure. *)
Theorem helpers_keep_plain_errors r kind topo w err :
  (status_FromError err).2 = false →
  let name := Name (ObjectMeta kind) in
  ((result (TopoClient_Get topo (mkGetRequest name) w)).2 = Some err →
   result (kindExists r kind topo w) = (false, Some err)) ∧
  (result (TopoClient_Create topo (mkCreateRequest (mirror kind)) w) = Some err →
   result (createKind r kind topo w) = Some err) ∧
  (result (TopoClient_Delete topo (mkDeleteRequest name) w) = Some err →
   result (deleteKind r kind topo w) = Some err).
Proof.
  intros Hplain name.
  assert (Htol : ∀ k, k ≠ Unknown → tolerate k (Some err) = Some err).
  { intros k Hk. by destruct err as [stat| | |]; [| unfold tolerate; rewrite decide_False..]. }
  rewrite kindExists_run, createKind_run, deleteKind_run. cbn zeta.
  unfold result at 2 4 6. cbn [fst snd]. fold name. unfold mirror. fold name.
  repeat split; intros ->; unfold existence; by rewrite Htol.
Qed.

(** A client that answers every call with a typed not-found error. *)
Lemma typed_not_found_is_a_failure :
  let w := world_of r1_deleting in
  (status_FromError gone).2 = false ∧
  errors_IsNotFound gone = true ∧
  result (deleteKind engine r1_deleting (failing_client gone) w) = Some gone ∧
  result (kindExists engine r1_deleting (failing_client gone) w) = (false, Some gone).
Proof.
  intros w.
  destruct (helpers_keep_plain_errors engine r1_deleting (failing_client gone) w gone eq_refl)
    as (Hget & _ & Hdel).
  split; [reflexivity |]. split; [reflexivity |].
  split; [exact (Hdel eq_refl) | exact (Hget eq_refl)].
Defined.

(** ** Setting the controller up *)

Ltac script_cases fs :=
  destruct fs as [|[?|] [|[?|] [|[?|] [|[?|] ?]]]]; simpl in *.

(** X12: [Add] succeeds exactly when none of its four calls fails; the
    controller is then registered under its name with a reconciler on the
    manager's client, and the three watches are set, in order, after those
    the manager had. *)
Theorem Add_registers mgr :
  let run := Add mgr in
  (run.1 = None ↔ ∀ i, i < 4 → script_item (mgr_faults mgr) i = None) ∧
  (run.1 = None →
   mgr_controllers run.2 =
     mgr_controllers mgr ++ [("topo-kind-controller", mkReconciler (mgr_client mgr))] ∧
   mgr_watches run.2 = mgr_watches mgr ++ kind_watches ∧
   mgr_client run.2 = mgr_client mgr).
Proof.
  destruct mgr as [c cs ws fs]. unfold script_item. simpl.
  script_cases fs.
  all: split; [split; [intros H i Hi | intros H] | intros H]; try done.
  all: try (destruct i as [|[|[|[|i]]]]; simpl; done || lia).
  all: try first
         [ by pose proof (H 0 ltac:(lia)) | by pose proof (H 1 ltac:(lia))
         | by pose proof (H 2 ltac:(lia)) | by pose proof (H 3 ltac:(lia)) ].
  all: by rewrite <- ?app_assoc.
Qed.

(** A set-up in which no call fails: the reconciler registered is the one
    the reconciliations above run. *)
Lemma Add_on_the_apiserver :
  let run := Add (manager_of []) in
  run.1 = None ∧
  mgr_controllers run.2 = [("topo-kind-controller", engine)] ∧
  mgr_watches run.2 = kind_watches.
Proof.
  intros run.
  assert (Hok : run.1 = None) by reflexivity.
  split; [exact Hok |].
  destruct (proj2 (Add_registers (manager_of [])) Hok) as (Hc & Hw & _).
  split; [exact Hc | exact Hw].
Defined.

(** X13: [Add] returns the error of the first of its four calls that fails
    and makes no call after it: a failure of [controller.New] leaves the
    manager without the controller, a failure of a watch leaves the
    controller with the watches set before it. *)
Theorem Add_stops_at_failure mgr i err :
  i < 4 →
  script_item (mgr_faults mgr) i = Some err →
  (∀ j, j < i → script_item (mgr_faults mgr) j = None) →
  let run := Add mgr in
  run.1 = Some err ∧
  mgr_controllers run.2 =
    (if i is 0 then mgr_controllers mgr
     else mgr_controllers mgr
            ++ [("topo-kind-controller", mkReconciler (mgr_client mgr))]) ∧
  mgr_watches run.2 = mgr_watches mgr ++ take (i - 1) kind_watches ∧
  mgr_faults run.2 = drop (S i) (mgr_faults mgr).
Proof.
  destruct mgr as [c cs ws fs]. unfold script_item. simpl.
  intros Hi Herr Hprev.
  destruct i as [|[|[|[|i]]]]; [| | | | lia].
  all: try pose proof (Hprev 0 ltac:(lia)) as H0.
  all: try pose proof (Hprev 1 ltac:(lia)) as H1.
  all: try pose proof (Hprev 2 ltac:(lia)) as H2.
  all: clear Hprev Hi.
  all: script_cases fs; simplify_eq/=.
  all: rewrite <- ?app_assoc, ?app_nil_r; done.
Qed.

(** The watch on entities cannot be set. *)
Lemma Add_without_entity_watch :
  let run := Add (manager_of [None; None; Some unavailable]) in
  run.1 = Some unavailable ∧
  mgr_controllers run.2 = [("topo-kind-controller", engine)] ∧
  mgr_watches run.2 =
    [("topo-kind-controller", mkSourceKind v1beta1_Kind_type,
      handler_EnqueueRequestForObject)] ∧
  mgr_faults run.2 = [].
Proof.
  apply (Add_stops_at_failure (manager_of [None; None; Some unavailable]) 2 unavailable).
  - lia.
  - reflexivity.
  - intros [|[|j]] Hj; [reflexivity | reflexivity | lia].
Defined.
